(** * DuckLake bootstrap and TPC-H validation: a shallow embedding

    The development follows the two scripts of the repository:
    - [bootstrap_ducklake.py]: configuration, the statements sent to the
      engine, catalog attachment and the bulk load of the reference dataset;
    - [run_tpch_queries.py]: the validator that runs every benchmark query
      on the reference engine and on the lakehouse catalog and compares the
      two results.

    Python values, exceptions and the string methods the scripts rely on are
    in [Py]; the engine's catalog (attached databases, secrets, active
    namespace) is in [Engine]. *)

From stdpp Require Import gmap strings list pretty.
From Stdlib Require Import Ascii QArith Qabs.

Close Scope Q_scope.
Open Scope string_scope.

(* ===================================================================== *)
(** ** Python values, exceptions and string methods                       *)
(* ===================================================================== *)

Module Py.

(** The exception classes the scripts raise or meet. All of them derive
    from [Exception], so a handler [except Exception] catches each one. *)
Inductive exn_class :=
  | ValueError | KeyError | IndexError | TypeError | AttributeError
  | AssertionError | FileNotFoundError | URLError
  | EngineError.   (* duckdb.Error and its subclasses *)

(** An exception with the text [str(e)] gives. *)
Record exn := Exn { exn_cls : exn_class; exn_text : string }.

(** The result of running a piece of Python: a value, a raised exception, or
    [Unmodelled] where Python's behaviour depends on something this
    development does not describe (values that do not conform to the
    declared types, format fields with conversions, ...). Nothing is claimed
    about a run that ends in [Unmodelled]. *)
Inductive outcome (A : Type) :=
  | Ok (a : A)
  | Raise (e : exn)
  | Unmodelled.
Arguments Ok {A} a.
Arguments Raise {A} e.
Arguments Unmodelled {A}.

Definition obind {A B} (x : outcome A) (f : A -> outcome B) : outcome B :=
  match x with
  | Ok a => f a
  | Raise e => Raise e
  | Unmodelled => Unmodelled
  end.

(** Code that changes a state [S] of its surroundings and may raise: what
    was changed before an exception stays changed. *)
Definition M (S A : Type) : Type := S -> outcome A * S.

Definition ret {S A} (a : A) : M S A := fun w => (Ok a, w).

Definition bind {S A B} (m : M S A) (f : A -> M S B) : M S B :=
  fun w =>
    match m w with
    | (Ok a, w') => f a w'
    | (Raise e, w') => (Raise e, w')
    | (Unmodelled, w') => (Unmodelled, w')
    end.

Definition raise {S A} (e : exn) : M S A := fun w => (Raise e, w).

Definition lift {S A} (x : outcome A) : M S A := fun w => (x, w).

(** [try: body except Exception as e: handler(e)]. *)
Definition try_except {S A} (body : M S A) (handler : exn -> M S A) : M S A :=
  fun w =>
    match body w with
    | (Raise e, w') => handler e w'
    | r => r
    end.

(** The scalars a YAML document holds. *)
Inductive pyval :=
  | PNone
  | PBool (b : bool)
  | PInt (z : Z)
  | PStr (s : string).

(** A section of the parsed configuration document, and the document:
    what [yaml.safe_load] returns for a mapping of mappings of scalars. *)
Abbreviation section := (gmap string pyval).
Abbreviation document := (gmap string section).

(** Truth value of a scalar, as in [if x:], [not x], [bool(x)]. *)
Definition truthy (v : pyval) : bool :=
  match v with
  | PNone => false
  | PBool b => b
  | PInt z => negb (z =? 0)%Z
  | PStr s => negb (String.eqb s "")
  end.

(** [str(x)], which is what an f-string field [{x}] inserts. *)
Definition str (v : pyval) : string :=
  match v with
  | PNone => "None"
  | PBool true => "True"
  | PBool false => "False"
  | PInt z => pretty z
  | PStr s => s
  end.

(** Truth value of an [Optional[str]]. *)
Definition truthy_opt (o : option string) : bool :=
  match o with
  | None => false
  | Some s => negb (String.eqb s "")
  end.

(** [a or b] on [Optional[str]]. *)
Definition or_opt (a b : option string) : option string :=
  if truthy_opt a then a else b.

(** [f"{o}"] on an [Optional[str]]. *)
Definition str_opt (o : option string) : string :=
  match o with None => "None" | Some s => s end.

(** *** [str.strip(chars)] for a one-character [chars] *)

Fixpoint lstrip (c : ascii) (s : string) : string :=
  match s with
  | EmptyString => EmptyString
  | String a s' => if Ascii.eqb a c then lstrip c s' else s
  end.

Fixpoint rstrip (c : ascii) (s : string) : string :=
  match s with
  | EmptyString => EmptyString
  | String a s' =>
      match rstrip c s' with
      | EmptyString => if Ascii.eqb a c then EmptyString else String a EmptyString
      | r => String a r
      end
  end.

Definition strip (c : ascii) (s : string) : string := rstrip c (lstrip c s).

(** Every character of [s] is [c]. *)
Fixpoint all_char (c : ascii) (s : string) : bool :=
  match s with
  | EmptyString => true
  | String a s' => Ascii.eqb a c && all_char c s'
  end.

Definition first_char (s : string) : option ascii :=
  match s with EmptyString => None | String a _ => Some a end.

Fixpoint last_char (s : string) : option ascii :=
  match s with
  | EmptyString => None
  | String a EmptyString => Some a
  | String _ s' => last_char s'
  end.

(** *** [str.replace(old, new)] for a non-empty [old]

    Occurrences are found left to right and do not overlap. [skip] counts
    the characters of a matched occurrence still to be passed over. *)
Fixpoint replace_go (old new : string) (skip : nat) (s : string) : string :=
  match s with
  | EmptyString => EmptyString
  | String a s' =>
      match skip with
      | S k => replace_go old new k s'
      | O =>
          if String.prefix old s
          then new +:+ replace_go old new (String.length old - 1) s'
          else String a (replace_go old new 0 s')
      end
  end.

Definition replace (old new s : string) : string := replace_go old new 0 s.

(** ["sep".join(parts)]. *)
Fixpoint join (sep : string) (parts : list string) : string :=
  match parts with
  | [] => EmptyString
  | [x] => x
  | x :: rest => x +:+ sep +:+ join sep rest
  end.

(** The line feed. *)
Definition nl : string := String "010"%char EmptyString.

(** *** [s.format(name=v)] with the single keyword argument [name]

    The scanner follows CPython's: text up to a brace; a doubled brace is a
    literal brace; a lone closing brace is an error; an opening brace starts
    a replacement field that runs to the next closing brace. The field
    [{name}] is replaced by the argument. An empty field asks for a
    positional argument and a field that is another identifier asks for
    another keyword: neither is there. A colon in a field starts a format
    specification, which runs to the closing brace that matches; when there
    is none the format string is refused. What a field with an index, an
    attribute, a conversion or a complete format specification expands to
    is left [Unmodelled]. *)
Inductive fmt_mode :=
  | FText                      (* in literal text *)
  | FOpen                      (* just after an opening brace *)
  | FClose                     (* just after a closing brace *)
  | FField (acc : string)      (* inside a field, [acc] read so far *)
  | FSpec (depth : nat).       (* inside a format specification, [depth]
                                  braces open besides that of the field *)

(** An ASCII letter or the underscore. *)
Definition is_ident_char (a : ascii) : bool :=
  let n := nat_of_ascii a in
  ((65 <=? n) && (n <=? 90) || (97 <=? n) && (n <=? 122) || (n =? 95))%nat.

Fixpoint all_ident (s : string) : bool :=
  match s with
  | EmptyString => true
  | String a s' => is_ident_char a && all_ident s'
  end.

Definition resolve_field (name field : string) : outcome string :=
  if String.eqb field "name" then Ok name
  else if String.eqb field "" then
    Raise (Exn IndexError "Replacement index 0 out of range for positional args tuple")
  else if all_ident field then Raise (Exn KeyError ("'" +:+ field +:+ "'"))
  else Unmodelled.

Definition field_breaks (a : ascii) : bool :=
  Ascii.eqb a "{" || Ascii.eqb a "[" || Ascii.eqb a "!" || Ascii.eqb a ".".

Fixpoint format_go (name : string) (mode : fmt_mode) (s : string) : outcome string :=
  match s with
  | EmptyString =>
      match mode with
      | FText => Ok EmptyString
      | FOpen => Raise (Exn ValueError "Single '{' encountered in format string")
      | FClose => Raise (Exn ValueError "Single '}' encountered in format string")
      | FField _ => Raise (Exn ValueError "expected '}' before end of string")
      | FSpec _ => Raise (Exn ValueError "unmatched '{' in format spec")
      end
  | String a s' =>
      let field acc :=
        if Ascii.eqb a "}" then
          obind (resolve_field name acc) (fun v =>
          obind (format_go name FText s') (fun r => Ok (v +:+ r)))
        else if Ascii.eqb a ":" then format_go name (FSpec 0) s'
        else if field_breaks a then Unmodelled
        else format_go name (FField (acc +:+ String a EmptyString)) s' in
      match mode with
      | FText =>
          if Ascii.eqb a "{" then format_go name FOpen s'
          else if Ascii.eqb a "}" then format_go name FClose s'
          else obind (format_go name FText s') (fun r => Ok (String a r))
      | FOpen =>
          if Ascii.eqb a "{"
          then obind (format_go name FText s') (fun r => Ok (String "{" r))
          else field EmptyString
      | FClose =>
          if Ascii.eqb a "}"
          then obind (format_go name FText s') (fun r => Ok (String "}" r))
          else Raise (Exn ValueError "Single '}' encountered in format string")
      | FField acc => field acc
      | FSpec depth =>
          if Ascii.eqb a "{" then format_go name (FSpec (S depth)) s'
          else if Ascii.eqb a "}" then
            match depth with
            | O => Unmodelled
            | S d => format_go name (FSpec d) s'
            end
          else format_go name (FSpec depth) s'
      end
  end.

Definition format (s name : string) : outcome string := format_go name FText s.

(** No brace occurs in [s]. *)
Fixpoint brace_free (s : string) : bool :=
  match s with
  | EmptyString => true
  | String a s' => negb (Ascii.eqb a "{") && negb (Ascii.eqb a "}") && brace_free s'
  end.

(** [sub in s] on strings. *)
Fixpoint contains (sub s : string) : bool :=
  String.prefix sub s ||
  match s with
  | EmptyString => false
  | String _ s' => contains sub s'
  end.

End Py.

Import Py.

(* ===================================================================== *)
(** ** The engine as the scripts see it                                   *)
(* ===================================================================== *)

Module Engine.

(** The statements the two scripts send through [con.execute]. *)
Inductive stmt :=
  | InstallLoad (ext : string)
  | CreateOrReplaceSecret (name sql : string)   (* [sql] is the full text *)
  | Attach (uri alias : string) (data_path : option string)
  | Use (alias : string)
  | CopyFromDatabase (src dst : string)
  | Detach (alias : string)
  | CreateTableIfNotExists (table cols : string)
  | CountRows (table : string).

(** The text of each statement, as the scripts build it. *)
Definition sql_of (s : stmt) : string :=
  match s with
  | InstallLoad ext => "INSTALL " +:+ ext +:+ "; LOAD " +:+ ext +:+ ";"
  | CreateOrReplaceSecret _ sql => sql
  | Attach uri alias (Some dp) =>
      "ATTACH '" +:+ uri +:+ "' AS " +:+ alias +:+ " (DATA_PATH '" +:+ dp +:+ "');"
  | Attach uri alias None => "ATTACH '" +:+ uri +:+ "' AS " +:+ alias +:+ ";"
  | Use alias => "USE " +:+ alias +:+ ";"
  | CopyFromDatabase src dst => "COPY FROM DATABASE " +:+ src +:+ " TO " +:+ dst +:+ ";"
  | Detach alias => "DETACH DATABASE " +:+ alias +:+ ";"
  | CreateTableIfNotExists t cols =>
      "CREATE TABLE IF NOT EXISTS " +:+ t +:+ "(" +:+ cols +:+ ");"
  | CountRows t => "SELECT COUNT(*) FROM " +:+ t +:+ ";"
  end.

(** Where [os.makedirs] is pointed: [os.path.dirname(p) or "."], with or
    without [os.path.abspath] applied to [p] first. *)
Inductive dir :=
  | DirOf (p : string)
  | DirOfAbs (p : string).

(** What a run does to the outside: the file system, the network and the
    engine. *)
Inductive event :=
  | Makedirs (d : dir)
  | Connect (database : string)
  | Execute (s : stmt)
  | Download (url path : string).

(** The process and its surroundings.
    - [attached], [secrets] and [current] are the catalog of the open
      connection: database aliases with the location each is bound to, named
      secrets with the statement that defined each, and the namespace
      selected by [USE].
    - [files] are the dataset files present in the working directory.
    - [rejects] and [net_fails] stand for every failure the surroundings
      decide (unreachable storage, a table that is already there, a refused
      download): the text of the error, if the statement or the download is
      refused. *)
Record World := {
  trace : list event;
  attached : gmap string string;
  secrets : gmap string string;
  current : option string;
  files : gset string;
  rejects : stmt -> option string;
  net_fails : string -> option string;
}.

Abbreviation M := (Py.M World).

Definition log (ev : event) (w : World) : World :=
  {| trace := trace w ++ [ev]; attached := attached w; secrets := secrets w;
     current := current w; files := files w; rejects := rejects w;
     net_fails := net_fails w |}.

Definition set_attached (m : gmap string string) (w : World) : World :=
  {| trace := trace w; attached := m; secrets := secrets w;
     current := current w; files := files w; rejects := rejects w;
     net_fails := net_fails w |}.

Definition set_secrets (m : gmap string string) (w : World) : World :=
  {| trace := trace w; attached := attached w; secrets := m;
     current := current w; files := files w; rejects := rejects w;
     net_fails := net_fails w |}.

Definition set_current (c : option string) (w : World) : World :=
  {| trace := trace w; attached := attached w; secrets := secrets w;
     current := c; files := files w; rejects := rejects w;
     net_fails := net_fails w |}.

Definition set_files (f : gset string) (w : World) : World :=
  {| trace := trace w; attached := attached w; secrets := secrets w;
     current := current w; files := f; rejects := rejects w;
     net_fails := net_fails w |}.

Definition already_exists (alias : string) : exn :=
  Exn EngineError
    ("Binder Error: Failed to attach database: database with name "
     +:+ alias +:+ " already exists").

Definition not_attached (alias : string) : exn :=
  Exn EngineError ("Catalog Error: database " +:+ alias +:+ " does not exist").

(** The catalog rules of the engine for one statement, once the
    surroundings let it through:
    - [CREATE OR REPLACE SECRET] binds the name, replacing an earlier secret
      of that name;
    - [ATTACH] (the scripts never write [IF NOT EXISTS]) binds a new alias
      and is an error when the alias is already bound;
    - [USE], [DETACH] and [COPY FROM DATABASE] need their aliases bound;
      [DETACH] unbinds. *)
Definition catalog_step (s : stmt) (w : World) : outcome unit * World :=
  match s with
  | InstallLoad _ => (Ok tt, w)
  | CreateOrReplaceSecret name sql =>
      (Ok tt, set_secrets (<[name := sql]> (secrets w)) w)
  | Attach uri alias _ =>
      match attached w !! alias with
      | Some _ => (Raise (already_exists alias), w)
      | None => (Ok tt, set_attached (<[alias := uri]> (attached w)) w)
      end
  | Use alias =>
      match attached w !! alias with
      | Some _ => (Ok tt, set_current (Some alias) w)
      | None => (Raise (not_attached alias), w)
      end
  | CopyFromDatabase src dst =>
      match attached w !! src, attached w !! dst with
      | Some _, Some _ => (Ok tt, w)
      | None, _ => (Raise (not_attached src), w)
      | _, None => (Raise (not_attached dst), w)
      end
  | Detach alias =>
      match attached w !! alias with
      | Some _ => (Ok tt, set_attached (delete alias (attached w)) w)
      | None => (Raise (not_attached alias), w)
      end
  | CreateTableIfNotExists _ _ => (Ok tt, w)
  | CountRows _ => (Ok tt, w)
  end.

(** [con.execute(sql)]. *)
Definition execute (s : stmt) : M unit :=
  fun w =>
    let w1 := log (Execute s) w in
    match rejects w s with
    | Some msg => (Raise (Exn EngineError msg), w1)
    | None => catalog_step s w1
    end.

(** [duckdb.connect(database=...)]: a new connection, nothing attached. *)
Definition connect (database : string) : M unit :=
  fun w =>
    (Ok tt, set_current None (set_secrets ∅ (set_attached ∅ (log (Connect database) w)))).

(** [os.makedirs(d, exist_ok=True)]. *)
Definition makedirs (d : dir) : M unit :=
  fun w => (Ok tt, log (Makedirs d) w).

(** [os.path.exists(path)]. *)
Definition path_exists (path : string) : M bool :=
  fun w => (Ok (bool_decide (path ∈ files w)), w).

(** [urllib.request.urlretrieve(url, path)]. *)
Definition urlretrieve (url path : string) : M unit :=
  fun w =>
    let w1 := log (Download url path) w in
    match net_fails w url with
    | Some msg => (Raise (Exn URLError msg), w1)
    | None => (Ok tt, set_files ({[path]} ∪ files w1) w1)
    end.

End Engine.

Import Engine.

Notation "x <- m ;; k" := (Py.bind m (fun x => k))
  (at level 100, m at next level, right associativity).
Notation "m ;;; k" := (Py.bind m (fun _ => k))
  (at level 100, right associativity).

(* ===================================================================== *)
(** ** bootstrap_ducklake.py                                              *)
(* ===================================================================== *)

Module Bootstrap.

Record MetadataDuckDB := { file_path : string }.

(** [MetadataDuckDB.attach_sql]. *)
Definition attach_sql (md : MetadataDuckDB) (alias data_path : string) : string :=
  "ATTACH 'ducklake:" +:+ file_path md +:+ "' AS " +:+ alias
  +:+ " (DATA_PATH '" +:+ data_path +:+ "');".

Record StorageMinIO := {
  bucket : string;
  prefix : string;
  endpoint : string;
  region : string;
  access_key : option string;
  secret_key : option string;
  use_ssl : bool;
  url_style : string;
}.

(** [StorageMinIO.data_path]. *)
Definition data_path (st : StorageMinIO) : string :=
  let prefix := strip "/" (prefix st) in
  if negb (String.eqb prefix "")
  then "s3://" +:+ bucket st +:+ "/" +:+ prefix +:+ "/"
  else "s3://" +:+ bucket st +:+ "/".

(** [endpoint.replace('http://','').replace('https://','')]. *)
Definition strip_scheme (endpoint : string) : string :=
  replace "https://" "" (replace "http://" "" endpoint).

(** The lines of the statement before they are joined and formatted. *)
Definition secret_parts (st : StorageMinIO) : list string :=
  [ "CREATE OR REPLACE SECRET {name} ("; "  TYPE S3," ]
  ++ (if truthy_opt (access_key st) && truthy_opt (secret_key st)
      then [ "  KEY_ID '" +:+ str_opt (access_key st) +:+ "',";
             "  SECRET '" +:+ str_opt (secret_key st) +:+ "'," ]
      else [])
  ++ [ "  ENDPOINT '" +:+ strip_scheme (endpoint st) +:+ "',";
       "  URL_STYLE '" +:+ url_style st +:+ "',";
       "  USE_SSL " +:+ (if use_ssl st then "true" else "false") +:+ ",";
       "  REGION '" +:+ region st +:+ "'";
       ");" ].

(** [StorageMinIO.create_secret_sql]: the joined lines go through
    [str.format] as a whole, the interpolated values included. *)
Definition create_secret_sql (st : StorageMinIO) (name : string) : outcome string :=
  format (join nl (secret_parts st)) name.

Record CatalogConfig := { alias : string }.

Record TPCHConfig := { default_scale : Z }.

Record AppConfig := {
  metadata : MetadataDuckDB;
  storage : StorageMinIO;
  catalog : CatalogConfig;
  tpch : TPCHConfig;
}.

(** [m.get(key, default)] for a field declared [str]. A value of another
    type is kept by Python as it is and goes wrong, or not, where it is
    used: such documents are outside the model. *)
Definition get_str (m : section) (key default : string) : outcome string :=
  match m !! key with
  | None => Ok default
  | Some (PStr s) => Ok s
  | Some _ => Unmodelled
  end.

(** [m.get(key, default)] for a field declared [Optional[str]]. *)
Definition get_opt_str (m : section) (key : string) (default : option string)
  : outcome (option string) :=
  match m !! key with
  | None => Ok default
  | Some PNone => Ok None
  | Some (PStr s) => Ok (Some s)
  | Some _ => Unmodelled
  end.

(** [int(x)] on a scalar; the parsing of a string is not modelled. *)
Definition py_int (v : pyval) : outcome Z :=
  match v with
  | PInt z => Ok z
  | PBool b => Ok (if b then 1 else 0)%Z
  | _ => Unmodelled
  end.

Definition missing_access_key : exn :=
  Exn ValueError
    "storage.access_key is required but was not provided in config or environment variables".

Definition missing_secret_key : exn :=
  Exn ValueError
    "storage.secret_key is required but was not provided in config or environment variables".

(** [AppConfig.from_dict]; [env] is the process environment, read by
    [os.getenv]. *)
Definition from_dict (env : gmap string string) (d : document)
  : outcome AppConfig :=
  let md := default ∅ (d !! "metadata") in
  let st := default ∅ (d !! "storage") in
  let cg := default ∅ (d !! "catalog") in
  let tp := default ∅ (d !! "tpch") in
  obind (get_str st "bucket" "ducklake-data") (fun bucket =>
  obind (get_str st "prefix" "tpch/") (fun prefix =>
  obind (get_str st "endpoint" "http://localhost:9000") (fun endpoint =>
  obind (get_str st "region" "us-east-1") (fun region =>
  obind (get_opt_str st "access_key" (env !! "MINIO_ACCESS_KEY")) (fun access_key =>
  obind (get_opt_str st "secret_key"
           (or_opt (env !! "MINIO_SECRET_KEY") (env !! "MINIO_SECRET_ACCESS_KEY")))
        (fun secret_key =>
  let use_ssl := truthy (default (PBool false) (st !! "use_ssl")) in
  obind (get_str st "url_style" "path") (fun url_style =>
  let storage :=
    {| bucket := bucket; prefix := prefix; endpoint := endpoint;
       region := region; access_key := access_key; secret_key := secret_key;
       use_ssl := use_ssl; url_style := url_style |} in
  if negb (truthy_opt access_key) then Raise missing_access_key
  else if negb (truthy_opt secret_key) then Raise missing_secret_key
  else
    obind (get_str md "duckdb_file" "./metadata.ducklake") (fun fp =>
    obind (get_str cg "alias" "my_ducklake") (fun al =>
    obind (py_int (default (PInt 1) (tp !! "default_scale"))) (fun sc =>
    Ok {| metadata := {| file_path := fp |}; storage := storage;
          catalog := {| alias := al |}; tpch := {| default_scale := sc |} |}
    )))))))))).

(** [open_duckdb_for_session]. *)
Definition open_duckdb_for_session (cfg : AppConfig) : M unit :=
  makedirs (DirOf (file_path (metadata cfg))) ;;;
  connect (file_path (metadata cfg)) ;;;
  execute (InstallLoad "httpfs") ;;;
  execute (InstallLoad "aws") ;;;
  execute (InstallLoad "ducklake") ;;;
  execute (InstallLoad "tpch").

(** [ensure_minio_secret]. *)
Definition ensure_minio_secret (st : StorageMinIO) (secret_name : string) : M unit :=
  sql <- lift (create_secret_sql st secret_name) ;;
  execute (CreateOrReplaceSecret secret_name sql).

(** [attach_ducklake]. *)
Definition attach_ducklake (cfg : AppConfig) : M unit :=
  makedirs (DirOfAbs (file_path (metadata cfg))) ;;;
  ensure_minio_secret (storage cfg) "minio" ;;;
  let data_path := data_path (storage cfg) in
  execute (Attach ("ducklake:" +:+ file_path (metadata cfg))
                  (alias (catalog cfg)) (Some data_path)) ;;;
  execute (Use (alias (catalog cfg))).

Definition dataset_url (scale : Z) : string :=
  "https://blobs.duckdb.org/data/tpch-sf" +:+ pretty scale +:+ ".db".

Definition local_db (scale : Z) : string :=
  "tpch-sf" +:+ pretty scale +:+ ".duckdb".

(** [generate_tpch_and_load]. *)
Definition generate_tpch_and_load (scale : Z) (ducklake_alias : string) : M unit :=
  present <- path_exists (local_db scale) ;;
  (if negb present
   then urlretrieve (dataset_url scale) (local_db scale)
   else ret tt) ;;;
  execute (Attach (local_db scale) "tpch_src" None) ;;;
  execute (CopyFromDatabase "tpch_src" ducklake_alias) ;;;
  execute (Detach "tpch_src").

(** [load_config], from the parsed document on. *)
Definition load_config (env : gmap string string) (d : document)
  : M AppConfig :=
  lift (from_dict env d).

(** [cmd_attach]. *)
Definition cmd_attach (env : gmap string string) (d : document) : M unit :=
  cfg <- load_config env d ;;
  open_duckdb_for_session cfg ;;;
  attach_ducklake cfg ;;;
  execute (CreateTableIfNotExists "bootstrap_check" "x INTEGER").

(** The counting loop that ends [cmd_load_tpch]: a table that cannot be
    counted is reported and skipped. *)
Fixpoint count_tables (ts : list string) : M unit :=
  match ts with
  | [] => ret tt
  | t :: rest =>
      try_except (execute (CountRows t)) (fun _ => ret tt) ;;;
      count_tables rest
  end.

(** [cmd_load_tpch]; [scale_arg] is [args.scale]. *)
Definition cmd_load_tpch (env : gmap string string) (d : document)
    (scale_arg : option Z) : M unit :=
  cfg <- load_config env d ;;
  open_duckdb_for_session cfg ;;;
  attach_ducklake cfg ;;;
  let scale :=
    match scale_arg with
    | Some z => if (z =? 0)%Z then default_scale (tpch cfg) else z
    | None => default_scale (tpch cfg)
    end in
  generate_tpch_and_load scale (alias (catalog cfg)) ;;;
  count_tables ["region"; "nation"; "customer"; "orders"; "lineitem"].

End Bootstrap.

(* ===================================================================== *)
(** ** run_tpch_queries.py                                                *)
(* ===================================================================== *)

Module Validator.

(** A value of a result table. Floating-point numbers are taken as the
    rationals they denote. *)
Inductive cell :=
  | Num (q : Q)
  | Text (s : string)
  | Null.

(** A [pandas.DataFrame] as [fetch_df] returns it: [nrows] rows under the
    default index, and the columns in order, each with its label. *)
Record Frame := {
  nrows : nat;
  cols : list (string * list cell);
}.

(** [list(df.columns)] and [len(df)]. *)
Definition columns (df : Frame) : list string := (cols df).*1.
Definition len (df : Frame) : nat := nrows df.

(** [df.sort_index(axis=1)]: the columns ordered by label. *)
Fixpoint insert_col (c : string * list cell) (l : list (string * list cell))
  : list (string * list cell) :=
  match l with
  | [] => [c]
  | d :: l' => if String.leb c.1 d.1 then c :: l else d :: insert_col c l'
  end.

Definition sort_index (df : Frame) : Frame :=
  {| nrows := nrows df; cols := foldr insert_col [] (cols df) |}.

Definition atol : Q := 1 # 1000000.   (* atol=1e-6, given by the caller *)
Definition rtol : Q := 1 # 100000.    (* rtol=1e-5, the default *)

(** [math.isclose(a, b, rel_tol=rtol, abs_tol=atol)], the test pandas
    applies to two numbers that are not equal. *)
Definition isclose (a b : Q) : bool :=
  let diff := Qabs (b - a)%Q in
  Qle_bool diff (Qabs (rtol * b)%Q) || Qle_bool diff (Qabs (rtol * a)%Q)
  || Qle_bool diff atol.

(** Two values pass: both missing, equal, or two numbers that are close. *)
Definition cell_close (x y : cell) : bool :=
  match x, y with
  | Null, Null => true
  | Num a, Num b => Qeq_bool a b || isclose a b
  | Text s, Text t => String.eqb s t
  | _, _ => false
  end.

Fixpoint cells_close (l r : list cell) : bool :=
  match l, r with
  | [], [] => true
  | x :: l', y :: r' => cell_close x y && cells_close l' r'
  | _, _ => false
  end.

Fixpoint cols_close (l r : list (string * list cell)) : bool :=
  match l, r with
  | [], [] => true
  | c :: l', d :: r' => cells_close c.2 d.2 && cols_close l' r'
  | _, _ => false
  end.

(** The text of the [AssertionError] is a rendering of the difference; the
    caller drops it. *)
Definition frames_differ : exn := Exn AssertionError "DataFrame are different".

(** [pd.testing.assert_frame_equal(left, right, atol=1e-6,
    check_dtype=False, check_like=True)]: the shapes are compared, then
    [left] is reindexed like [right], then the labels and, column by column,
    the values. Both frames carry the default row index. When the two label
    sequences are the same the reindexing changes nothing; when they are
    not, it fills in missing values, which is not modelled. *)
Definition assert_frame_equal (left right : Frame) : outcome unit :=
  if negb (bool_decide (nrows left = nrows right)
           && bool_decide (length (cols left) = length (cols right)))
  then Raise frames_differ
  else if negb (bool_decide (columns left = columns right)) then Unmodelled
  else if cols_close (cols left) (cols right) then Ok tt
  else Raise frames_differ.

(** Lines 76 to 92 of [validate_tpch]: the verdict on two results. *)
Definition classify (df_ref df_dl : Frame) : outcome (bool * string) :=
  if negb (bool_decide (columns df_ref = columns df_dl)) then
    Ok (false, "Column mismatch")
  else if negb (bool_decide (len df_ref = len df_dl)) then
    Ok (false, "Row count mismatch (" +:+ pretty (len df_ref) +:+ " vs "
               +:+ pretty (len df_dl) +:+ ")")
  else
    match assert_frame_equal (sort_index df_ref) (sort_index df_dl) with
    | Ok _ => Ok (true, "")
    | Raise (Exn AssertionError _) => Ok (false, "Data mismatch")
    | Raise e => Raise e
    | Unmodelled => Unmodelled
    end.

(** What the engine answers to a statement: a result set or an exception.
    A statement without a result set gives a frame that is not looked at. *)
Inductive answer :=
  | Result (df : Frame)
  | Error (e : exn).

(** An open connection, as far as the validator uses it: the answer to
    each statement. *)
Abbreviation Conn := (string -> answer).

(** [con.execute(sql).fetch_df()]. *)
Definition fetch_df (con : Conn) (sql : string) : outcome Frame :=
  match con sql with
  | Result df => Ok df
  | Error e => Raise e
  end.

(** [con.execute(sql)] for its effect only. *)
Definition run (con : Conn) (sql : string) : outcome unit :=
  obind (fetch_df con sql) (fun _ => Ok tt).

(** [cfg[sec][key]]; [str(KeyError(k))] is the quoted key. *)
Definition getitem2 (cfg : document) (sec key : string) : outcome pyval :=
  match cfg !! sec with
  | None => Raise (Exn KeyError ("'" +:+ sec +:+ "'"))
  | Some m =>
      match m !! key with
      | None => Raise (Exn KeyError ("'" +:+ key +:+ "'"))
      | Some v => Ok v
      end
  end.

(** [cfg['storage'].get(key, default)]. *)
Definition storage_get (cfg : document) (key : string) (dflt : pyval)
  : outcome pyval :=
  match cfg !! "storage" with
  | None => Raise (Exn KeyError "'storage'")
  | Some m => Ok (default dflt (m !! key))
  end.

(** Line 14 of [open_ducklake]: the data root, the two values put side by
    side as they are. *)
Definition data_path (cfg : document) : outcome string :=
  obind (getitem2 cfg "storage" "bucket") (fun bucket =>
  obind (getitem2 cfg "storage" "prefix") (fun prefix =>
  Ok ("s3://" +:+ str bucket +:+ "/" +:+ str prefix))).

Definition indent8 : string := "        ".
Definition indent10 : string := "          ".

(** Lines 21 to 31 of [open_ducklake]: the secret statement. A value of
    [endpoint] that is not a string has no [replace]; that is not modelled. *)
Definition secret_sql (cfg : document) : outcome string :=
  obind (storage_get cfg "access_key" (PStr "minioadmin")) (fun access_key =>
  obind (storage_get cfg "secret_key" (PStr "minioadmin")) (fun secret_key =>
  obind (getitem2 cfg "storage" "endpoint") (fun endpoint =>
  obind (match endpoint with
         | PStr e => Ok (replace "https://" "" (replace "http://" "" e))
         | _ => Unmodelled
         end) (fun endpoint =>
  obind (storage_get cfg "url_style" (PStr "path")) (fun url_style =>
  obind (storage_get cfg "use_ssl" (PBool false)) (fun use_ssl =>
  obind (storage_get cfg "region" (PStr "us-east-1")) (fun region =>
  Ok (nl +:+ indent8 +:+ "CREATE OR REPLACE SECRET minio (" +:+ nl
      +:+ indent10 +:+ "TYPE S3," +:+ nl
      +:+ indent10 +:+ "KEY_ID '" +:+ str access_key +:+ "'," +:+ nl
      +:+ indent10 +:+ "SECRET '" +:+ str secret_key +:+ "'," +:+ nl
      +:+ indent10 +:+ "ENDPOINT '" +:+ endpoint +:+ "'," +:+ nl
      +:+ indent10 +:+ "URL_STYLE '" +:+ str url_style +:+ "'," +:+ nl
      +:+ indent10 +:+ "USE_SSL " +:+ (if truthy use_ssl then "true" else "false")
      +:+ "," +:+ nl
      +:+ indent10 +:+ "REGION '" +:+ str region +:+ "'" +:+ nl
      +:+ indent8 +:+ ");" +:+ nl +:+ "    ")))))))).

(** [open_ducklake], on the connection [duckdb.connect] has just opened. *)
Definition open_ducklake (cfg : document) (con : Conn) : outcome unit :=
  obind (getitem2 cfg "metadata" "duckdb_file") (fun db_path =>
  obind (data_path cfg) (fun data_path =>
  obind (getitem2 cfg "catalog" "alias") (fun alias =>
  obind (run con "INSTALL httpfs; LOAD httpfs;") (fun _ =>
  obind (run con "INSTALL aws; LOAD aws;") (fun _ =>
  obind (run con "INSTALL ducklake; LOAD ducklake;") (fun _ =>
  obind (secret_sql cfg) (fun sql =>
  obind (run con sql) (fun _ =>
  obind (run con ("ATTACH 'ducklake:" +:+ str db_path +:+ "' AS " +:+ str alias
                  +:+ " (DATA_PATH '" +:+ data_path +:+ "');")) (fun _ =>
  run con ("USE " +:+ str alias +:+ ";")))))))))).

Definition local_db (scale : Z) : string :=
  "tpch-sf" +:+ pretty scale +:+ ".duckdb".

(** [open_reference]; [present] is [os.path.exists]. *)
Definition open_reference (present : string -> bool) (scale : Z) (con : Conn)
  : outcome unit :=
  if negb (present (local_db scale)) then
    Raise (Exn FileNotFoundError
             (local_db scale +:+ " not found — run bootstrap/load first to download it."))
  else
    obind (run con "INSTALL tpch; LOAD tpch;") (fun _ =>
    run con ("ATTACH '" +:+ local_db scale +:+ "' AS tpch_ref;")).

(** What the validator is given from outside: the answers of the two
    connections and the files that are there. *)
Record Env := {
  ducklake_con : Conn;
  ref_con : Conn;
  present : string -> bool;
}.

(** A line of the summary. *)
Record Row := {
  query : string;
  matched : bool;     (* the key [match] *)
  reason : string;
}.

(** What [to_csv] is given. *)
Inductive content :=
  | FrameCsv (df : Frame)
  | SummaryCsv (rows : list Row).

(** The list [summary] and the files written under [tpch_validation/], in
    the order they were written. *)
Record State := {
  summary : list Row;
  written : list (string * content);
}.

Abbreviation V := (Py.M State).

(** [summary.append(row)]. *)
Definition append (r : Row) : V unit :=
  fun s => (Ok tt, {| summary := summary s ++ [r]; written := written s |}).

(** [x.to_csv(path, index=False)], into the directory made just before. *)
Definition to_csv (path : string) (c : content) : V unit :=
  fun s => (Ok tt, {| summary := summary s; written := written s ++ [(path, c)] |}).

(** [f"{q:02d}"]. *)
Definition fmt02d (q : Z) : string :=
  if ((0 <=? q) && (q <? 10))%Z then "0" +:+ pretty q else pretty q.

Definition label (q : Z) : string := "Q" +:+ fmt02d q.
Definition ref_csv (q : Z) : string := "tpch_validation/q" +:+ fmt02d q +:+ "_ref.csv".
Definition ducklake_csv (q : Z) : string :=
  "tpch_validation/q" +:+ fmt02d q +:+ "_ducklake.csv".

(** [cur.fetchone()[0]] on a one-column result: there may be no row. *)
Definition fetchone0 (r : Frame) : outcome string :=
  match nrows r with
  | O => Raise (Exn TypeError "'NoneType' object is not subscriptable")
  | S _ =>
      match cols r with
      | (_, Text s :: _) :: _ => Ok s
      | _ => Unmodelled
      end
  end.

(** Lines 65 to 67: the text of query [q], asked of the lakehouse
    connection. *)
Definition fetch_query (env : Env) (q : Z) : outcome string :=
  obind (fetch_df (ducklake_con env)
           ("SELECT query FROM tpch_queries() WHERE query_nr=" +:+ pretty q +:+ ";"))
        fetchone0.

(** Lines 71 to 92: both executions and the verdict. *)
Definition compare (cfg : document) (env : Env) (sql : string)
  : outcome (Frame * Frame * (bool * string)) :=
  obind (run (ref_con env) "USE tpch_ref;") (fun _ =>
  obind (fetch_df (ref_con env) sql) (fun df_ref =>
  obind (getitem2 cfg "catalog" "alias") (fun alias =>
  obind (run (ducklake_con env) ("USE " +:+ str alias +:+ ";")) (fun _ =>
  obind (fetch_df (ducklake_con env) sql) (fun df_dl =>
  obind (classify df_ref df_dl) (fun verdict =>
  Ok (df_ref, df_dl, verdict))))))).

(** Lines 70 to 103: the guarded part of one turn of the loop. *)
Definition guarded (cfg : document) (env : Env) (q : Z) (sql : string) : V unit :=
  try_except
    (r <- lift (compare cfg env sql) ;;
     let '(df_ref, df_dl, (ok, why)) := r in
     append {| query := label q; matched := ok; reason := why |} ;;;
     if negb ok
     then to_csv (ref_csv q) (FrameCsv df_ref) ;;;
          to_csv (ducklake_csv q) (FrameCsv df_dl)
     else ret tt)
    (fun e => append {| query := label q; matched := false; reason := exn_text e |}).

(** Lines 64 to 103: the loop. The query text is fetched before the guarded
    part is entered. *)
Fixpoint loop (cfg : document) (env : Env) (query_ids : list Z) : V unit :=
  match query_ids with
  | [] => ret tt
  | q :: rest =>
      sql <- lift (fetch_query env q) ;;
      guarded cfg env q sql ;;;
      loop cfg env rest
  end.

(** [range(1, 23)]. *)
Definition all_queries : list Z := Z.of_nat <$> seq 1 22.

(** The query ids the loop runs over: all of them when none is given. *)
Definition effective_ids (query_ids : list Z) : list Z :=
  match query_ids with [] => all_queries | _ => query_ids end.

(** [validate_tpch]; the list [summary] starts empty. *)
Definition validate_tpch (cfg : document) (env : Env) (scale : Z)
    (query_ids : list Z) : V unit :=
  let query_ids := effective_ids query_ids in
  lift (open_ducklake cfg (ducklake_con env)) ;;;
  lift (open_reference (present env) scale (ref_con env)) ;;;
  (fun s => (Ok tt, {| summary := []; written := written s |})) ;;;
  loop cfg env query_ids ;;;
  (fun s => to_csv "tpch_validation/validation_summary.csv" (SummaryCsv (summary s)) s).

(** [main]. *)
Definition main (cfg : document) (env : Env) : V unit :=
  match cfg !! "tpch" with
  | None => raise (Exn KeyError "'tpch'")
  | Some tp =>
      match default (PInt 1) (tp !! "default_scale") with
      | PInt scale => validate_tpch cfg env scale []
      | _ => lift Unmodelled
      end
  end.

End Validator.

(* ===================================================================== *)
(** ** The words of the specification                                     *)
(* ===================================================================== *)

Module Spec.

(** Two values agree within the tolerance of the specification: two
    numbers that differ by at most 1e-6, the same text, or both missing. *)
Definition within_tolerance (x y : Validator.cell) : Prop :=
  match x, y with
  | Validator.Num a, Validator.Num b => (Qabs (a - b) <= 1 # 1000000)%Q
  | Validator.Text s, Validator.Text t => s = t
  | Validator.Null, Validator.Null => True
  | _, _ => False
  end.

(** Corresponding values of two tables agree within the tolerance. *)
Definition same_data (a b : Validator.Frame) : Prop :=
  Forall2 (fun c d => Forall2 within_tolerance c.2 d.2)
          (Validator.cols a) (Validator.cols b).

(** Steps 2 to 4 for the query id [q], once its text is there: both
    executions and the verdict, or the exception one of them raised. *)
Definition steps_2_to_4 (cfg : document) (env : Validator.Env) (q : Z)
    (r : outcome (Validator.Frame * Validator.Frame * (bool * string))) : Prop :=
  ∃ sql, Validator.fetch_query env q = Ok sql
         ∧ Validator.compare cfg env sql = r.

(** The line of the summary for [q]: its label, and either the verdict or,
    when steps 2 to 4 raised, [matched=false] with the text of the
    exception as the reason. *)
Definition row_for (cfg : document) (env : Validator.Env) (q : Z)
    (row : Validator.Row) : Prop :=
  Validator.query row = Validator.label q
  ∧ ((∃ e, steps_2_to_4 cfg env q (Raise e)
           ∧ Validator.matched row = false
           ∧ Validator.reason row = exn_text e)
     ∨ (∃ a b ok why, steps_2_to_4 cfg env q (Ok (a, b, (ok, why)))
           ∧ Validator.matched row = ok
           ∧ Validator.reason row = why)).

(** The files written for [q]: the two results when the verdict is a
    mismatch; nothing when it is a match or when steps 2 to 4 raised. *)
Definition dumps_for (cfg : document) (env : Validator.Env) (q : Z)
    (files : list (string * Validator.content)) : Prop :=
  (∃ a b why, steps_2_to_4 cfg env q (Ok (a, b, (false, why)))
      ∧ files = [ (Validator.ref_csv q, Validator.FrameCsv a);
                  (Validator.ducklake_csv q, Validator.FrameCsv b) ])
  ∨ (((∃ a b why, steps_2_to_4 cfg env q (Ok (a, b, (true, why))))
      ∨ (∃ e, steps_2_to_4 cfg env q (Raise e)))
     ∧ files = []).

Definition summary_csv : string := "tpch_validation/validation_summary.csv".

(** The access key by the precedence of the specification: the value
    under the key of the storage section when the key is there, else the
    environment variable. *)
Definition resolved_access_key (env : gmap string string) (st : section)
  : option string :=
  match st !! "access_key" with
  | Some (PStr s) => Some s
  | Some _ => None
  | None => env !! "MINIO_ACCESS_KEY"
  end.

(** The secret key likewise; the environment has two names for it. *)
Definition resolved_secret_key (env : gmap string string) (st : section)
  : option string :=
  match st !! "secret_key" with
  | Some (PStr s) => Some s
  | Some _ => None
  | None => or_opt (env !! "MINIO_SECRET_KEY") (env !! "MINIO_SECRET_ACCESS_KEY")
  end.

(** The value under [k] is a string, if there is one. *)
Definition str_or_absent (m : section) (k : string) : bool :=
  match m !! k with
  | None | Some (PStr _) => true
  | Some _ => false
  end.

(** The value under [k] is a string or null, if there is one. *)
Definition opt_str_or_absent (m : section) (k : string) : bool :=
  match m !! k with
  | None | Some PNone | Some (PStr _) => true
  | Some _ => false
  end.

(** The value under [k] is an integer or a boolean, if there is one. *)
Definition int_or_absent (m : section) (k : string) : bool :=
  match m !! k with
  | None | Some (PInt _) | Some (PBool _) => true
  | Some _ => false
  end.

(** The document conforms to the types the configuration classes declare. *)
Definition typed_document (d : document) : bool :=
  let md := default ∅ (d !! "metadata") in
  let st := default ∅ (d !! "storage") in
  let cg := default ∅ (d !! "catalog") in
  let tp := default ∅ (d !! "tpch") in
  str_or_absent st "bucket" && str_or_absent st "prefix"
  && str_or_absent st "endpoint" && str_or_absent st "region"
  && opt_str_or_absent st "access_key" && opt_str_or_absent st "secret_key"
  && str_or_absent st "url_style"
  && str_or_absent md "duckdb_file" && str_or_absent cg "alias"
  && int_or_absent tp "default_scale".

End Spec.

(* ===================================================================== *)
(** ** Example inputs                                                     *)
(* ===================================================================== *)

Module Examples.

(** A storage section as [init-config] writes it, with a bucket [lake]. *)
Definition storage_of (prefix : string) (ak sk : option string)
  : Bootstrap.StorageMinIO :=
  {| Bootstrap.bucket := "lake"; Bootstrap.prefix := prefix;
     Bootstrap.endpoint := "http://localhost:9000";
     Bootstrap.region := "us-east-1";
     Bootstrap.access_key := ak; Bootstrap.secret_key := sk;
     Bootstrap.use_ssl := false; Bootstrap.url_style := "path" |}.

(** The parsed configuration document with the given storage section. *)
Definition doc_of (st : section) : document :=
  {[ "metadata" := {[ "duckdb_file" := PStr "./metadata.ducklake" ]};
     "storage" := st;
     "catalog" := {[ "alias" := PStr "my_ducklake" ]};
     "tpch" := {[ "default_scale" := PInt 1 ]} ]}.

(** A storage section without credentials, prefix [p]. *)
Definition storage_section (p : string) : section :=
  {[ "bucket" := PStr "lake"; "prefix" := PStr p;
     "endpoint" := PStr "http://localhost:9000" ]}.

(** The same with the development credentials of MinIO written in. *)
Definition storage_with_keys (p : string) : section :=
  <[ "access_key" := PStr "minioadmin" ]>
    (<[ "secret_key" := PStr "minioadmin" ]> (storage_section p)).

(** A frame with [n] rows. *)
Definition frame (n : nat) (c : list (string * list Validator.cell))
  : Validator.Frame :=
  {| Validator.nrows := n; Validator.cols := c |}.

(** Columns [a, b] on one side and [b, a] on the other, the same data. *)
Definition ab : Validator.Frame :=
  frame 1 [("a", [Validator.Num 1]); ("b", [Validator.Text "x"])].
Definition ba : Validator.Frame :=
  frame 1 [("b", [Validator.Text "x"]); ("a", [Validator.Num 1])].

(** The same column, five rows and seven rows. *)
Definition five : Validator.Frame :=
  frame 5 [("n", Validator.Num <$> [1; 2; 3; 4; 5]%Q)].
Definition seven : Validator.Frame :=
  frame 7 [("n", Validator.Num <$> [1; 2; 3; 4; 5; 6; 7]%Q)].

(** One row each: revenue 100.000001 and 100.0000009. *)
Definition revenue_ref : Validator.Frame :=
  frame 1 [("revenue", [Validator.Num (100000001 # 1000000)])].
Definition revenue_dl : Validator.Frame :=
  frame 1 [("revenue", [Validator.Num (1000000009 # 10000000)])].

(** The lakehouse connection of the scenarios. It knows the text of the
    queries 1, 2 and 3 and has no row for another number; the table of
    query 1 is missing; query 2 comes back with another value, query 3 with
    the value of the reference. *)
Definition lake_con : Validator.Conn := fun sql =>
  if String.eqb sql "SELECT query FROM tpch_queries() WHERE query_nr=1;"
  then Validator.Result (frame 1 [("query", [Validator.Text "SELECT one"])])
  else if String.eqb sql "SELECT query FROM tpch_queries() WHERE query_nr=2;"
  then Validator.Result (frame 1 [("query", [Validator.Text "SELECT two"])])
  else if String.eqb sql "SELECT query FROM tpch_queries() WHERE query_nr=3;"
  then Validator.Result (frame 1 [("query", [Validator.Text "SELECT three"])])
  else if String.prefix "SELECT query FROM tpch_queries()" sql
  then Validator.Result (frame 0 [("query", [])])
  else if String.eqb sql "SELECT one"
  then Validator.Error
         (Exn EngineError "Catalog Error: Table with name lineitem does not exist!")
  else if String.eqb sql "SELECT two"
  then Validator.Result (frame 1 [("total", [Validator.Num 3])])
  else if String.eqb sql "SELECT three"
  then Validator.Result (frame 1 [("total", [Validator.Num 7])])
  else Validator.Result (frame 0 []).

(** The reference connection of the scenarios. *)
Definition reference_con : Validator.Conn := fun sql =>
  if String.eqb sql "SELECT one"
  then Validator.Result (frame 1 [("total", [Validator.Num 1])])
  else if String.eqb sql "SELECT two"
  then Validator.Result (frame 1 [("total", [Validator.Num 2])])
  else if String.eqb sql "SELECT three"
  then Validator.Result (frame 1 [("total", [Validator.Num 7])])
  else Validator.Result (frame 0 []).

Definition scenario : Validator.Env :=
  {| Validator.ducklake_con := lake_con;
     Validator.ref_con := reference_con;
     Validator.present := fun _ => true |}.

Definition scenario_doc : document := doc_of (storage_with_keys "tpch/").

Definition fresh : Validator.State :=
  {| Validator.summary := []; Validator.written := [] |}.

(** A process that has just connected: nothing attached, no secret, the
    dataset not downloaded yet, and surroundings that refuse nothing. *)
Definition calm : World :=
  {| trace := []; attached := ∅; secrets := ∅; current := None; files := ∅;
     rejects := fun _ => None; net_fails := fun _ => None |}.

(** The configuration [from_dict] builds from the starter document when the
    credentials come from the environment. *)
Definition app_config : Bootstrap.AppConfig :=
  {| Bootstrap.metadata := {| Bootstrap.file_path := "./metadata.ducklake" |};
     Bootstrap.storage := storage_of "tpch/" (Some "minioadmin") (Some "minioadmin");
     Bootstrap.catalog := {| Bootstrap.alias := "my_ducklake" |};
     Bootstrap.tpch := {| Bootstrap.default_scale := 1 |} |}.

(** The catalog is attached and empty, the dataset not downloaded yet. *)
Definition attached_empty : World :=
  {| trace := []; attached := {[ "my_ducklake" := "ducklake:./metadata.ducklake" ]};
     secrets := ∅; current := Some "my_ducklake"; files := ∅;
     rejects := fun _ => None; net_fails := fun _ => None |}.

(** The catalog is attached, the dataset is not there and the network is
    down. *)
Definition offline : World :=
  {| trace := []; attached := {[ "my_ducklake" := "ducklake:./metadata.ducklake" ]};
     secrets := ∅; current := Some "my_ducklake"; files := ∅;
     rejects := fun _ => None;
     net_fails := fun _ => Some "Temporary failure in name resolution" |}.

(** The catalog is attached and already holds the tables: the engine
    refuses the bulk copy. *)
Definition populated : World :=
  {| trace := []; attached := {[ "my_ducklake" := "ducklake:./metadata.ducklake" ]};
     secrets := ∅; current := Some "my_ducklake"; files := {[ "tpch-sf1.duckdb" ]};
     rejects := fun s =>
       match s with
       | CopyFromDatabase _ _ =>
           Some "Catalog Error: Table with name region already exists!"
       | _ => None
       end;
     net_fails := fun _ => None |}.

(** A connection that accepts every statement. *)
Definition accepting_con : Validator.Conn :=
  fun _ => Validator.Result (frame 0 []).

(** The starter document, without credentials. *)
Definition starter_doc : document := doc_of (storage_section "tpch/").

(** An environment with both credentials. *)
Definition minio_env : gmap string string :=
  {[ "MINIO_ACCESS_KEY" := "root"; "MINIO_SECRET_KEY" := "hunter22" ]}.

(** The starter document with an access key written as the empty string. *)
Definition empty_key_doc : document :=
  doc_of (<[ "access_key" := PStr "" ]> (storage_section "tpch/")).

(** An environment whose [MINIO_SECRET_KEY] is set but empty. *)
Definition fallback_env : gmap string string :=
  {[ "MINIO_ACCESS_KEY" := "root"; "MINIO_SECRET_KEY" := "";
     "MINIO_SECRET_ACCESS_KEY" := "hunter22" ]}.

(** The starter document with TLS switched off by a quoted word. *)
Definition quoted_ssl_doc : document :=
  doc_of (<[ "use_ssl" := PStr "false" ]> (storage_with_keys "tpch/")).

(** [st] with another prefix. *)
Definition with_prefix (st : Bootstrap.StorageMinIO) (p : string)
  : Bootstrap.StorageMinIO :=
  {| Bootstrap.bucket := Bootstrap.bucket st; Bootstrap.prefix := p;
     Bootstrap.endpoint := Bootstrap.endpoint st;
     Bootstrap.region := Bootstrap.region st;
     Bootstrap.access_key := Bootstrap.access_key st;
     Bootstrap.secret_key := Bootstrap.secret_key st;
     Bootstrap.use_ssl := Bootstrap.use_ssl st;
     Bootstrap.url_style := Bootstrap.url_style st |}.

End Examples.

(* ===================================================================== *)
(** ** Trimming and the data root                                         *)
(* ===================================================================== *)

Lemma lstrip_spec c s :
  ∃ l, s = l +:+ lstrip c s ∧ all_char c l = true
       ∧ first_char (lstrip c s) ≠ Some c.
Proof.
  induction s as [|a s IH]; cbn.
  - by exists "".
  - destruct (Ascii.eqb a c) eqn:E.
    + destruct IH as (l & Hs & Hl & Hf).
      exists (String a l). cbn. rewrite E, Hl.
      split; [exact (f_equal (String a) Hs) | done].
    + exists "". cbn. repeat split; [].
      intros [= ->]. by rewrite Ascii.eqb_refl in E.
Qed.

Lemma rstrip_spec c s :
  ∃ r, s = rstrip c s +:+ r ∧ all_char c r = true
       ∧ last_char (rstrip c s) ≠ Some c.
Proof.
  induction s as [|a s IH]; cbn.
  - by exists "".
  - destruct IH as (r & Hs & Hr & Hl).
    destruct (rstrip c s) as [|b t] eqn:R.
    + change (s = r) in Hs. subst r.
      destruct (Ascii.eqb a c) eqn:E.
      * exists (String a s). cbn. by rewrite E, Hr.
      * exists s. cbn. repeat split; [done|].
        intros [= ->]. by rewrite Ascii.eqb_refl in E.
    + exists r. split; [exact (f_equal (String a) Hs) | done].
Qed.

Lemma rstrip_first c s :
  first_char s ≠ Some c → first_char (rstrip c s) ≠ Some c.
Proof.
  destruct s as [|a s]; simpl; [done|].
  intros Ha. destruct (rstrip c s); [|done].
  destruct (Ascii.eqb a c); done.
Qed.

(** [strip] removes exactly the separators at the two ends. *)
Lemma strip_spec c s :
  ∃ l r, s = l +:+ strip c s +:+ r
         ∧ all_char c l = true ∧ all_char c r = true
         ∧ first_char (strip c s) ≠ Some c ∧ last_char (strip c s) ≠ Some c.
Proof.
  unfold strip.
  destruct (lstrip_spec c s) as (l & Hs & Hl & Hf).
  destruct (rstrip_spec c (lstrip c s)) as (r & Hs' & Hr & Hla).
  exists l, r. repeat split; try done.
  - by rewrite <- Hs'.
  - by apply rstrip_first.
Qed.

(** C6. For every bucket and prefix, [data_path] splits the prefix into
    leading separators, a trimmed middle and trailing separators, and
    returns "s3://{bucket}/{middle}/" when the middle is not empty and
    "s3://{bucket}/" when it is; with the prefix "" the result is
    "s3://{bucket}/" and with "/a/" it is "s3://{bucket}/a/". *)
Theorem data_path_trimmed (st : Bootstrap.StorageMinIO) :
  (∃ l t r,
      Bootstrap.prefix st = l +:+ t +:+ r
      ∧ all_char "/" l = true ∧ all_char "/" r = true
      ∧ first_char t ≠ Some "/"%char ∧ last_char t ≠ Some "/"%char
      ∧ Bootstrap.data_path st =
          if String.eqb t ""
          then "s3://" +:+ Bootstrap.bucket st +:+ "/"
          else "s3://" +:+ Bootstrap.bucket st +:+ "/" +:+ t +:+ "/")
  ∧ Bootstrap.data_path (Examples.with_prefix st "")
    = "s3://" +:+ Bootstrap.bucket st +:+ "/"
  ∧ Bootstrap.data_path (Examples.with_prefix st "/a/")
    = "s3://" +:+ Bootstrap.bucket st +:+ "/a/".
Proof.
  split; [|split; reflexivity].
  destruct (strip_spec "/" (Bootstrap.prefix st)) as (l & r & Hs & Hl & Hr & Hf & Hla).
  exists l, (strip "/" (Bootstrap.prefix st)), r.
  repeat split; try done.
  unfold Bootstrap.data_path.
  by destruct (String.eqb (strip "/" (Bootstrap.prefix st)) "").
Qed.

(** The raw concatenation of the validator and the trimmed form of the
    bootstrap give the same data root exactly for a prefix that is already
    in trimmed form: empty, or without a leading separator and with one
    trailing separator. *)
Lemma data_roots_agree_iff (st : Bootstrap.StorageMinIO) :
  "s3://" +:+ Bootstrap.bucket st +:+ "/" +:+ Bootstrap.prefix st
    = Bootstrap.data_path st
  ↔ Bootstrap.prefix st =
      (let t := strip "/" (Bootstrap.prefix st) in
       if String.eqb t "" then "" else t +:+ "/").
Proof.
  unfold Bootstrap.data_path. cbv zeta.
  destruct (String.eqb (strip "/" (Bootstrap.prefix st)) "") eqn:E; cbn [negb].
  - split.
    + intros H. do 2 apply String.app_inj in H.
      change (String "/" (Bootstrap.prefix st) = String "/" "") in H.
      by injection H.
    + intros ->. done.
  - split.
    + intros H. by do 3 apply String.app_inj in H.
    + intros <-. done.
Qed.

(** What [open_ducklake] computes for a document that has both keys. *)
Lemma validator_data_path (cfg : document) (m : section) (b p : string) :
  cfg !! "storage" = Some m →
  m !! "bucket" = Some (PStr b) →
  m !! "prefix" = Some (PStr p) →
  Validator.data_path cfg = Ok ("s3://" +:+ b +:+ "/" +:+ p).
Proof.
  intros Hs Hb Hp. unfold Validator.data_path, Validator.getitem2.
  by rewrite Hs, Hb, Hp.
Qed.

(** C10. With the prefix "tpch" (no trailing separator) the validator
    attaches with the data root "s3://lake/tpch" while the bootstrap, from
    the same document, attaches with "s3://lake/tpch/": the two
    computations are not equal as functions of bucket and prefix. *)
Theorem data_roots_differ :
  let d := Examples.doc_of (Examples.storage_with_keys "tpch") in
  Validator.data_path d = Ok "s3://lake/tpch"
  ∧ obind (Bootstrap.from_dict ∅ d)
          (fun cfg => Ok (Bootstrap.data_path (Bootstrap.storage cfg)))
    = Ok "s3://lake/tpch/".
Proof. by vm_compute. Qed.

(* ===================================================================== *)
(** ** The verdict on two results                                         *)
(* ===================================================================== *)

(** C2. The rules are tried in order. When the two sequences of column
    labels differ the verdict is a mismatch with the reason
    "Column mismatch", whatever the row counts; when they are the same and
    the row counts a and b differ, the verdict is a mismatch with the reason
    "Row count mismatch (a vs b)", the count of the reference first. *)
Theorem classify_shape_rules (df_ref df_dl : Validator.Frame) :
  (Validator.columns df_ref ≠ Validator.columns df_dl →
     Validator.classify df_ref df_dl = Ok (false, "Column mismatch"))
  ∧ (Validator.columns df_ref = Validator.columns df_dl →
     Validator.len df_ref ≠ Validator.len df_dl →
     Validator.classify df_ref df_dl =
       Ok (false, "Row count mismatch (" +:+ pretty (Validator.len df_ref)
                  +:+ " vs " +:+ pretty (Validator.len df_dl) +:+ ")")).
Proof.
  unfold Validator.classify. split.
  - intros H. by rewrite bool_decide_eq_false_2.
  - intros Hc Hl.
    rewrite (bool_decide_eq_true_2 _ Hc). cbn [negb].
    by rewrite bool_decide_eq_false_2.
Qed.

(** The rules of C2 at work: columns [a, b] against [b, a] with the same
    data, and five rows against seven. *)
Lemma classify_shape_rules_witness :
  Validator.classify Examples.ab Examples.ba = Ok (false, "Column mismatch")
  ∧ Validator.classify Examples.five Examples.seven
    = Ok (false, "Row count mismatch (5 vs 7)").
Proof.
  split.
  - apply (proj1 (classify_shape_rules Examples.ab Examples.ba)).
    vm_compute. discriminate.
  - apply (proj2 (classify_shape_rules Examples.five Examples.seven)).
    + reflexivity.
    + vm_compute. discriminate.
Defined.

(** Columns that go together stay together when both sides are sorted by
    label. *)
Section Sorting.
Context (R : list Validator.cell → list Validator.cell → Prop).

Let paired (c d : string * list Validator.cell) : Prop :=
  c.1 = d.1 ∧ R c.2 d.2.

Lemma insert_col_paired c d l r :
  paired c d → Forall2 paired l r →
  Forall2 paired (Validator.insert_col c l) (Validator.insert_col d r).
Proof.
  intros Hcd Hlr. induction Hlr as [|x y l r Hxy Hlr IH]; cbn.
  - by constructor.
  - destruct Hcd as [Hn Hv], Hxy as [Hn' Hv'].
    rewrite <- Hn, <- Hn'.
    destruct (String.leb c.1 x.1).
    + constructor; [done|]. by constructor.
    + constructor; [done|]. exact IH.
Qed.

Lemma sort_paired l r :
  Forall2 paired l r →
  Forall2 paired (foldr Validator.insert_col [] l)
                 (foldr Validator.insert_col [] r).
Proof.
  induction 1 as [|x y l r Hxy Hlr IH]; cbn; [constructor|].
  by apply insert_col_paired.
Qed.

Lemma paired_intro l r :
  l.*1 = r.*1 → Forall2 (fun c d => R c.2 d.2) l r → Forall2 paired l r.
Proof.
  intros Hn H. revert Hn.
  induction H as [|x y l r Hxy Hlr IH]; cbn; [constructor|].
  intros [= Hh Ht]. constructor; [done | by apply IH].
Qed.

Lemma paired_names l r : Forall2 paired l r → l.*1 = r.*1.
Proof.
  induction 1 as [|x y l r [Hn _] _ IH]; cbn; [done|]. by rewrite Hn, IH.
Qed.
End Sorting.

Lemma sort_index_columns (a b : Validator.Frame) :
  Validator.columns a = Validator.columns b →
  length (Validator.cols a) = length (Validator.cols b) →
  Validator.columns (Validator.sort_index a)
  = Validator.columns (Validator.sort_index b)
  ∧ length (Validator.cols (Validator.sort_index a))
    = length (Validator.cols (Validator.sort_index b)).
Proof.
  intros Hn Hl.
  assert (Forall2 (fun c d => c.1 = d.1 ∧ True)
            (Validator.cols a) (Validator.cols b)) as H.
  { apply (paired_intro (fun _ _ => True)); [done|].
    by apply Forall2_true. }
  apply (sort_paired (fun _ _ => True)) in H.
  split.
  - exact (paired_names (fun _ _ => True) _ _ H).
  - exact (Forall2_length _ _ _ H).
Qed.

Lemma columns_length (a b : Validator.Frame) :
  Validator.columns a = Validator.columns b →
  length (Validator.cols a) = length (Validator.cols b).
Proof.
  unfold Validator.columns. intros H.
  by rewrite <- (length_fmap fst (Validator.cols a)), H, length_fmap.
Qed.

(** The verdict is always within the model: the comparison is reached only
    with the same labels on both sides. *)
Lemma classify_modelled (a b : Validator.Frame) :
  Validator.classify a b ≠ Unmodelled.
Proof.
  unfold Validator.classify.
  destruct (bool_decide (Validator.columns a = Validator.columns b)) eqn:Hc;
    cbn [negb]; [|done].
  destruct (bool_decide (Validator.len a = Validator.len b)); cbn [negb]; [|done].
  apply bool_decide_eq_true_1 in Hc.
  destruct (sort_index_columns a b Hc (columns_length a b Hc)) as [Hs Hl].
  unfold Validator.assert_frame_equal.
  rewrite (bool_decide_eq_true_2 _ Hs). cbn [negb].
  destruct (negb _); [by destruct Validator.frames_differ as [[] ?]|].
  destruct (Validator.cols_close _ _); [done|]. done.
Qed.

Lemma within_tolerance_close (x y : Validator.cell) :
  Spec.within_tolerance x y → Validator.cell_close x y = true.
Proof.
  destruct x as [a|s|], y as [b|t|]; cbn; try done.
  - intros H. apply orb_true_intro. right.
    unfold Validator.isclose. apply orb_true_intro. right.
    apply Qle_bool_iff. unfold Validator.atol.
    by rewrite Qabs_Qminus.
  - intros ->. apply String.eqb_refl.
Qed.

Lemma within_tolerance_cells (l r : list Validator.cell) :
  Forall2 Spec.within_tolerance l r → Validator.cells_close l r = true.
Proof.
  induction 1 as [|x y l r Hxy _ IH]; cbn; [done|].
  by rewrite (within_tolerance_close _ _ Hxy), IH.
Qed.

Lemma paired_cols_close (l r : list (string * list Validator.cell)) :
  Forall2 (fun c d => c.1 = d.1 ∧ Forall2 Spec.within_tolerance c.2 d.2) l r →
  Validator.cols_close l r = true.
Proof.
  induction 1 as [|x y l r [_ Hxy] _ IH]; cbn; [done|].
  by rewrite (within_tolerance_cells _ _ Hxy), IH.
Qed.

Lemma within_tolerance_refl (x : Validator.cell) : Spec.within_tolerance x x.
Proof.
  destruct x as [a|s|]; [|reflexivity|exact I].
  change (Qabs (a - a) <= 1 # 1000000)%Q.
  setoid_replace (a - a)%Q with 0%Q using relation Qeq by ring. done.
Qed.

Lemma same_data_refl (a : Validator.Frame) : Spec.same_data a a.
Proof.
  unfold Spec.same_data. apply Forall_Forall2_diag, Forall_forall.
  intros c _. apply Forall_Forall2_diag, Forall_forall.
  intros x _. apply within_tolerance_refl.
Qed.

(** C8. Two results with the same column labels in the same order and the
    same number of rows are a match, with an empty reason, whenever their
    corresponding values agree within the tolerance 1e-6 (numbers are taken
    as rationals); in particular a result always matches itself. *)
Theorem classify_within_tolerance (df_ref df_dl : Validator.Frame) :
  Validator.columns df_ref = Validator.columns df_dl →
  Validator.len df_ref = Validator.len df_dl →
  Spec.same_data df_ref df_dl →
  Validator.classify df_ref df_dl = Ok (true, "")
  ∧ Validator.classify df_ref df_ref = Ok (true, "").
Proof.
  assert (∀ a b, Validator.columns a = Validator.columns b →
                 Validator.len a = Validator.len b →
                 Spec.same_data a b →
                 Validator.classify a b = Ok (true, "")) as Hmain.
  { intros a b Hc Hl Hd. unfold Validator.classify.
    rewrite (bool_decide_eq_true_2 _ Hc), (bool_decide_eq_true_2 _ Hl).
    cbn [negb].
    pose proof (paired_intro _ _ _ Hc Hd) as Hp.
    apply sort_paired in Hp.
    unfold Validator.assert_frame_equal.
    change (Validator.nrows (Validator.sort_index a)) with (Validator.len a).
    change (Validator.nrows (Validator.sort_index b)) with (Validator.len b).
    rewrite (bool_decide_eq_true_2 _ Hl).
    rewrite (bool_decide_eq_true_2 _ (Forall2_length _ _ _ Hp)).
    cbn [andb negb].
    unfold Validator.columns at 1 2.
    rewrite (bool_decide_eq_true_2 _ (paired_names _ _ _ Hp)).
    cbn [negb].
    cbn [Validator.cols Validator.sort_index].
    by rewrite (paired_cols_close _ _ Hp). }
  intros Hc Hl Hd. split.
  - by apply Hmain.
  - apply Hmain; [done | done | apply same_data_refl].
Qed.

(** C8 on the scenario of the specification: one row on each side,
    revenue 100.000001 against 100.0000009. *)
Lemma classify_within_tolerance_witness :
  Validator.classify Examples.revenue_ref Examples.revenue_dl = Ok (true, "").
Proof.
  apply (classify_within_tolerance Examples.revenue_ref Examples.revenue_dl).
  - reflexivity.
  - reflexivity.
  - repeat constructor. cbn. unfold Qle. vm_compute. discriminate.
Defined.

(* ===================================================================== *)
(** ** The loop of the validator                                          *)
(* ===================================================================== *)

Lemma fetch_df_modelled (con : Validator.Conn) sql :
  Validator.fetch_df con sql ≠ Unmodelled.
Proof. unfold Validator.fetch_df. by destruct (con sql). Qed.

Lemma run_modelled (con : Validator.Conn) sql : Validator.run con sql ≠ Unmodelled.
Proof.
  unfold Validator.run, Validator.fetch_df. by destruct (con sql).
Qed.

Lemma getitem2_modelled cfg sec key : Validator.getitem2 cfg sec key ≠ Unmodelled.
Proof.
  unfold Validator.getitem2.
  destruct (cfg !! sec) as [m|]; [|done]. by destruct (m !! key).
Qed.

(** Steps 2 to 4 end in a verdict or in an exception. *)
Lemma compare_modelled cfg env sql : Validator.compare cfg env sql ≠ Unmodelled.
Proof.
  unfold Validator.compare.
  pose proof (run_modelled (Validator.ref_con env) "USE tpch_ref;") as H1.
  destruct (Validator.run _ _); cbn [obind]; [|done|done].
  pose proof (fetch_df_modelled (Validator.ref_con env) sql) as H2.
  destruct (Validator.fetch_df _ _) as [df_ref| |]; cbn [obind]; [|done|done].
  pose proof (getitem2_modelled cfg "catalog" "alias") as H3.
  destruct (Validator.getitem2 _ _ _) as [al| |]; cbn [obind]; [|done|done].
  pose proof (run_modelled (Validator.ducklake_con env) ("USE " +:+ str al +:+ ";")) as H4.
  destruct (Validator.run _ _); cbn [obind]; [|done|done].
  pose proof (fetch_df_modelled (Validator.ducklake_con env) sql) as H5.
  destruct (Validator.fetch_df _ _) as [df_dl| |]; cbn [obind]; [|done|done].
  pose proof (classify_modelled df_ref df_dl) as H6.
  destruct (Validator.classify _ _) as [v| |]; cbn [obind]; done.
Qed.

(** One turn of the guarded part: it never raises, it adds one line to the
    summary and it writes the two results exactly on a mismatch. *)
Lemma guarded_turn cfg env q sql s :
  Validator.fetch_query env q = Ok sql →
  ∃ row files,
    Validator.guarded cfg env q sql s
    = (Ok tt, {| Validator.summary := Validator.summary s ++ [row];
                 Validator.written := Validator.written s ++ files |})
    ∧ Spec.row_for cfg env q row
    ∧ Spec.dumps_for cfg env q files.
Proof.
  intros Hq.
  unfold Validator.guarded, try_except, bind, lift.
  pose proof (compare_modelled cfg env sql) as Hm.
  destruct (Validator.compare cfg env sql) as [[[a b] [ok why]]|e|] eqn:Hc;
    [| |done].
  - destruct ok; cbn.
    + eexists _, []. rewrite app_nil_r. split; [done|]. split.
      * split; [done|]. right. exists a, b, true, why. by repeat split; [exists sql|..].
      * right. split; [|done]. left. exists a, b, why. by exists sql.
    + eexists _, [_; _]. rewrite <- app_assoc. split; [done|]. split.
      * split; [done|]. right. exists a, b, false, why. by repeat split; [exists sql|..].
      * left. exists a, b, why. split; [by exists sql | done].
  - cbn. eexists _, []. rewrite app_nil_r. split; [done|]. split.
    + split; [done|]. left. exists e. by repeat split; [exists sql|..].
    + right. split; [|done]. right. exists e. by exists sql.
Qed.

(** The loop, when every query text is there: it ends normally with one line
    per id, in order, and the files of the ids in order. *)
Lemma loop_run cfg env ids :
  (∀ q, q ∈ ids → ∃ sql, Validator.fetch_query env q = Ok sql) →
  ∀ s, ∃ rows files,
    Validator.loop cfg env ids s
    = (Ok tt, {| Validator.summary := Validator.summary s ++ rows;
                 Validator.written := Validator.written s ++ concat files |})
    ∧ Forall2 (Spec.row_for cfg env) ids rows
    ∧ Forall2 (Spec.dumps_for cfg env) ids files.
Proof.
  induction ids as [|q ids IH]; intros Hf s.
  - exists [], []. cbn. rewrite !app_nil_r. by destruct s.
  - destruct (Hf q) as [sql Hq]; [left|].
    destruct (guarded_turn cfg env q sql s Hq) as (row & fs & Hg & Hr & Hd).
    destruct (IH (fun q' H => Hf q' (list_elem_of_further _ _ _ H))
                 {| Validator.summary := Validator.summary s ++ [row];
                    Validator.written := Validator.written s ++ fs |})
      as (rows & files & Hl & Hrs & Hds).
    exists (row :: rows), (fs :: files).
    split; [|split; by constructor].
    cbn [Validator.loop]. unfold bind at 1, lift. rewrite Hq.
    unfold bind at 1. rewrite Hg, Hl. cbn.
    by rewrite <- !app_assoc.
Qed.

(** The query text is fetched outside the guarded part: an exception there
    ends the loop. *)
Lemma loop_fetch_raises cfg env q rest e s :
  Validator.fetch_query env q = Raise e →
  Validator.loop cfg env (q :: rest) s = (Raise e, s).
Proof.
  intros H. cbn [Validator.loop]. unfold bind at 1, lift. by rewrite H.
Qed.

(** The whole run, when both sessions open and every query text is there. *)
Lemma validate_run cfg env scale ids s :
  Validator.open_ducklake cfg (Validator.ducklake_con env) = Ok tt →
  Validator.open_reference (Validator.present env) scale (Validator.ref_con env)
    = Ok tt →
  (∀ q, q ∈ Validator.effective_ids ids →
        ∃ sql, Validator.fetch_query env q = Ok sql) →
  ∃ rows files,
    Validator.validate_tpch cfg env scale ids s
    = (Ok tt,
       {| Validator.summary := rows;
          Validator.written :=
            Validator.written s ++ concat files
            ++ [(Spec.summary_csv, Validator.SummaryCsv rows)] |})
    ∧ Forall2 (Spec.row_for cfg env) (Validator.effective_ids ids) rows
    ∧ Forall2 (Spec.dumps_for cfg env) (Validator.effective_ids ids) files.
Proof.
  intros Hd Hr Hf.
  destruct (loop_run cfg env (Validator.effective_ids ids) Hf
              {| Validator.summary := []; Validator.written := Validator.written s |})
    as (rows & files & Hl & Hrs & Hds).
  exists rows, files. split; [|done].
  unfold Validator.validate_tpch, bind, lift.
  rewrite Hd, Hr, Hl. unfold Validator.to_csv. cbn.
  by rewrite <- app_assoc.
Qed.

(** C1 (amended). When both sessions open and the text of every requested
    query id is fetched, validation ends normally with one line per id, in
    the order of the ids: an exception raised while executing on the
    reference engine, executing on the lakehouse catalog or classifying is
    caught and becomes a line with matched=false and the text of the
    exception as its reason, and the ids after it are validated all the
    same. *)
Theorem validate_isolates_execution_failures cfg env scale ids s :
  Validator.open_ducklake cfg (Validator.ducklake_con env) = Ok tt →
  Validator.open_reference (Validator.present env) scale (Validator.ref_con env)
    = Ok tt →
  (∀ q, q ∈ Validator.effective_ids ids →
        ∃ sql, Validator.fetch_query env q = Ok sql) →
  ∃ s',
    Validator.validate_tpch cfg env scale ids s = (Ok tt, s')
    ∧ Forall2 (Spec.row_for cfg env) (Validator.effective_ids ids)
              (Validator.summary s')
    ∧ last (Validator.written s')
      = Some (Spec.summary_csv, Validator.SummaryCsv (Validator.summary s')).
Proof.
  intros Hd Hr Hf.
  destruct (validate_run cfg env scale ids s Hd Hr Hf) as (rows & files & Hv & Hrs & _).
  eexists. split; [exact Hv|]. split; [exact Hrs|].
  cbn. by rewrite !app_assoc, last_snoc.
Qed.

Lemma scenario_fetches q :
  q ∈ [1; 2; 3]%Z → ∃ sql, Validator.fetch_query Examples.scenario q = Ok sql.
Proof.
  intros H. repeat (apply elem_of_cons in H as [->|H]); [by eexists..|].
  by apply elem_of_nil in H.
Qed.

(** C1 on a scenario: the table of query 1 is missing on the lakehouse
    side; queries 2 and 3 are validated and reported all the same. *)
Lemma validate_isolates_execution_failures_witness :
  ∃ s',
    Validator.validate_tpch Examples.scenario_doc Examples.scenario 1 [1; 2; 3]%Z
                            Examples.fresh = (Ok tt, s')
    ∧ Forall2 (Spec.row_for Examples.scenario_doc Examples.scenario) [1; 2; 3]%Z
              (Validator.summary s')
    ∧ last (Validator.written s')
      = Some (Spec.summary_csv, Validator.SummaryCsv (Validator.summary s')).
Proof.
  apply (validate_isolates_execution_failures
           Examples.scenario_doc Examples.scenario 1 [1; 2; 3]%Z Examples.fresh).
  - reflexivity.
  - reflexivity.
  - exact scenario_fetches.
Defined.

(** The summary of that scenario, line by line. *)
Lemma scenario_summary :
  Validator.summary
    (Validator.validate_tpch Examples.scenario_doc Examples.scenario 1
                             [1; 2; 3]%Z Examples.fresh).2
  = [ {| Validator.query := "Q01"; Validator.matched := false;
         Validator.reason :=
           "Catalog Error: Table with name lineitem does not exist!" |};
      {| Validator.query := "Q02"; Validator.matched := false;
         Validator.reason := "Data mismatch" |};
      {| Validator.query := "Q03"; Validator.matched := true;
         Validator.reason := "" |} ].
Proof. by vm_compute. Qed.

(** C1 as stated fails at step 1. The lakehouse has no query 23: fetching
    its text raises outside the guarded part, the exception leaves
    [validate_tpch], no line is recorded for 23, query 1 after it is never
    validated and no summary is written. *)
Lemma fetch_failure_aborts_validation :
  Validator.fetch_query Examples.scenario 23
  = Raise (Exn TypeError "'NoneType' object is not subscriptable")
  ∧ Validator.validate_tpch Examples.scenario_doc Examples.scenario 1 [23; 1]%Z
                            Examples.fresh
    = (Raise (Exn TypeError "'NoneType' object is not subscriptable"),
       {| Validator.summary := []; Validator.written := [] |}).
Proof. by vm_compute. Qed.

(** C9. In a run that ends normally the files written are, id by id in the
    order of the ids and then the summary: the pair of results of an id,
    under the names of that id, when its verdict is a mismatch; and nothing
    for an id whose verdict is a match or whose steps 2 to 4 raised. *)
Theorem artifacts_exactly_on_mismatch cfg env scale ids s :
  Validator.open_ducklake cfg (Validator.ducklake_con env) = Ok tt →
  Validator.open_reference (Validator.present env) scale (Validator.ref_con env)
    = Ok tt →
  (∀ q, q ∈ Validator.effective_ids ids →
        ∃ sql, Validator.fetch_query env q = Ok sql) →
  ∃ s' files,
    Validator.validate_tpch cfg env scale ids s = (Ok tt, s')
    ∧ Validator.written s'
      = (Validator.written s ++ concat files
         ++ [(Spec.summary_csv, Validator.SummaryCsv (Validator.summary s'))])%list
    ∧ Forall2 (Spec.dumps_for cfg env) (Validator.effective_ids ids) files.
Proof.
  intros Hd Hr Hf.
  destruct (validate_run cfg env scale ids s Hd Hr Hf) as (rows & files & Hv & _ & Hds).
  eexists _, files. split; [exact Hv|]. by split.
Qed.

(** C9 on the scenario: nothing for query 1 (an exception), the pair for
    query 2 (a mismatch), nothing for query 3 (a match). *)
Lemma artifacts_exactly_on_mismatch_witness :
  ∃ s' files,
    Validator.validate_tpch Examples.scenario_doc Examples.scenario 1 [1; 2; 3]%Z
                            Examples.fresh = (Ok tt, s')
    ∧ Validator.written s'
      = (Validator.written Examples.fresh ++ concat files
         ++ [(Spec.summary_csv, Validator.SummaryCsv (Validator.summary s'))])%list
    ∧ Forall2 (Spec.dumps_for Examples.scenario_doc Examples.scenario)
              [1; 2; 3]%Z files.
Proof.
  apply (artifacts_exactly_on_mismatch
           Examples.scenario_doc Examples.scenario 1 [1; 2; 3]%Z Examples.fresh).
  - reflexivity.
  - reflexivity.
  - exact scenario_fetches.
Defined.

(** The files of that scenario. *)
Lemma scenario_files :
  (Validator.written
     (Validator.validate_tpch Examples.scenario_doc Examples.scenario 1
                              [1; 2; 3]%Z Examples.fresh).2).*1
  = [ "tpch_validation/q02_ref.csv"; "tpch_validation/q02_ducklake.csv";
      "tpch_validation/validation_summary.csv" ].
Proof. by vm_compute. Qed.

(* ===================================================================== *)
(** ** Statements against the catalog                                     *)
(* ===================================================================== *)

Lemma bind_ok {S A B} (m : Py.M S A) (f : A → Py.M S B) w b w' :
  bind m f w = (Ok b, w') →
  ∃ a w1, m w = (Ok a, w1) ∧ f a w1 = (Ok b, w').
Proof.
  unfold bind. destruct (m w) as [[a| |] w1]; [|done|done].
  intros H. by exists a, w1.
Qed.

Lemma execute_ok s w w' :
  execute s w = (Ok tt, w') →
  rejects w s = None ∧ catalog_step s (log (Execute s) w) = (Ok tt, w').
Proof.
  unfold execute. by destruct (rejects w s).
Qed.

Lemma execute_detach_ok a w w' :
  execute (Detach a) w = (Ok tt, w') → attached w' !! a = None.
Proof.
  intros [_ H]%execute_ok. cbn in H.
  destruct (attached w !! a); [|done].
  injection H as <-. cbn. apply lookup_delete_eq.
Qed.

(** C3 (amended). The transient attachment [tpch_src] is gone whenever the
    bulk load returns normally. When the engine takes the attachment and
    then refuses the bulk copy, the exception of the copy leaves the
    function and [tpch_src] is still attached. *)
Theorem transient_attachment_after_load (scale : Z) (ducklake_alias : string)
    (w : World) :
  (∀ w', Bootstrap.generate_tpch_and_load scale ducklake_alias w = (Ok tt, w') →
         attached w' !! "tpch_src" = None)
  ∧ (∀ msg,
       (Bootstrap.local_db scale ∈ files w
        ∨ net_fails w (Bootstrap.dataset_url scale) = None) →
       attached w !! "tpch_src" = None →
       rejects w (Attach (Bootstrap.local_db scale) "tpch_src" None) = None →
       rejects w (CopyFromDatabase "tpch_src" ducklake_alias) = Some msg →
       ∃ w', Bootstrap.generate_tpch_and_load scale ducklake_alias w
             = (Raise (Exn EngineError msg), w')
             ∧ attached w' !! "tpch_src" = Some (Bootstrap.local_db scale)).
Proof.
  split.
  - intros w' H. unfold Bootstrap.generate_tpch_and_load in H.
    apply bind_ok in H as (present & w1 & _ & H).
    apply bind_ok in H as (? & w2 & _ & H).
    apply bind_ok in H as (? & w3 & _ & H).
    apply bind_ok in H as ([] & w4 & _ & H).
    by apply execute_detach_ok in H.
  - intros msg Hfile Hfree Hatt Hcopy.
    unfold Bootstrap.generate_tpch_and_load, bind at 1, path_exists.
    assert (∀ w0 : World,
              attached w0 = attached w → rejects w0 = rejects w →
              ∃ w', (execute (Attach (Bootstrap.local_db scale) "tpch_src" None) ;;;
                     execute (CopyFromDatabase "tpch_src" ducklake_alias) ;;;
                     execute (Detach "tpch_src")) w0
                    = (Raise (Exn EngineError msg), w')
                    ∧ attached w' !! "tpch_src" = Some (Bootstrap.local_db scale))
      as Hrest.
    { intros w0 Ha Hr. unfold bind, execute. rewrite Hr, Hatt. cbn.
      rewrite Ha, Hfree. cbn. rewrite Hr, Hcopy.
      eexists. split; [done|]. cbn. apply lookup_insert_eq. }
    destruct (bool_decide (Bootstrap.local_db scale ∈ files w)) eqn:E; cbn [negb].
    + unfold bind at 1, ret. by apply Hrest.
    + destruct Hfile as [Hin|Hnet]; [by apply bool_decide_eq_false_1 in E|].
      unfold bind at 1, urlretrieve. rewrite Hnet. by apply Hrest.
Qed.

(** C3 on two runs: a first load into an attached, empty catalog returns
    with [tpch_src] detached; a load into a catalog that already holds the
    tables raises at the copy with [tpch_src] left attached. *)
Lemma transient_attachment_after_load_witness :
  (let w' := (Bootstrap.generate_tpch_and_load 1 "my_ducklake"
                Examples.attached_empty).2 in
   Bootstrap.generate_tpch_and_load 1 "my_ducklake" Examples.attached_empty
   = (Ok tt, w')
   ∧ attached w' !! "tpch_src" = None)
  ∧ ∃ w', Bootstrap.generate_tpch_and_load 1 "my_ducklake" Examples.populated
          = (Raise (Exn EngineError
                      "Catalog Error: Table with name region already exists!"), w')
          ∧ attached w' !! "tpch_src" = Some (Bootstrap.local_db 1).
Proof.
  split.
  - split; [reflexivity|].
    apply (proj1 (transient_attachment_after_load 1 "my_ducklake"
                    Examples.attached_empty)).
    reflexivity.
  - apply (proj2 (transient_attachment_after_load 1 "my_ducklake" Examples.populated)).
    + left. by vm_compute.
    + reflexivity.
    + reflexivity.
    + reflexivity.
Defined.

(** C3 as stated fails on the failure path: the catalog already holds the
    tables, the copy raises, and the function is left with [tpch_src]
    attached; the statement that detaches it was never sent. *)
Lemma copy_failure_leaves_attachment :
  let r := Bootstrap.generate_tpch_and_load 1 "my_ducklake" Examples.populated in
  r.1 = Raise (Exn EngineError "Catalog Error: Table with name region already exists!")
  ∧ attached r.2 !! "tpch_src" = Some "tpch-sf1.duckdb"
  ∧ trace r.2 = [ Execute (Attach "tpch-sf1.duckdb" "tpch_src" None);
                  Execute (CopyFromDatabase "tpch_src" "my_ducklake") ].
Proof. by vm_compute. Qed.

Lemma execute_secret_ok name sql w w' :
  execute (CreateOrReplaceSecret name sql) w = (Ok tt, w') →
  rejects w (CreateOrReplaceSecret name sql) = None
  ∧ w' = set_secrets (<[name := sql]> (secrets w))
                     (log (Execute (CreateOrReplaceSecret name sql)) w).
Proof.
  intros [Hr H]%execute_ok. cbn in H. split; [done|]. by injection H.
Qed.

Lemma ensure_minio_secret_ok st name w w' :
  Bootstrap.ensure_minio_secret st name w = (Ok tt, w') →
  ∃ sql, Bootstrap.create_secret_sql st name = Ok sql
         ∧ rejects w (CreateOrReplaceSecret name sql) = None
         ∧ attached w' = attached w ∧ current w' = current w
         ∧ rejects w' = rejects w
         ∧ secrets w' = <[name := sql]> (secrets w).
Proof.
  unfold Bootstrap.ensure_minio_secret, bind at 1, lift.
  destruct (Bootstrap.create_secret_sql st name) as [sql| |]; [|done|done].
  intros [Hr ->]%execute_secret_ok. by exists sql.
Qed.

(** Sending the secret statement again: it is accepted again and leaves
    the secrets as they were. *)
Lemma ensure_minio_secret_again st name sql w :
  Bootstrap.create_secret_sql st name = Ok sql →
  rejects w (CreateOrReplaceSecret name sql) = None →
  secrets w !! name = Some sql →
  ∃ w', Bootstrap.ensure_minio_secret st name w = (Ok tt, w')
        ∧ secrets w' = secrets w ∧ attached w' = attached w
        ∧ current w' = current w ∧ rejects w' = rejects w.
Proof.
  intros Hsql Hr Hs.
  unfold Bootstrap.ensure_minio_secret, bind, lift, execute.
  rewrite Hsql, Hr. cbn. eexists. split; [done|]. cbn.
  by rewrite insert_id.
Qed.

(** What a successful attach leaves behind. *)
Lemma attach_ducklake_ok cfg w w1 :
  Bootstrap.attach_ducklake cfg w = (Ok tt, w1) →
  ∃ sql,
    Bootstrap.create_secret_sql (Bootstrap.storage cfg) "minio" = Ok sql
    ∧ rejects w (CreateOrReplaceSecret "minio" sql) = None
    ∧ rejects w (Attach ("ducklake:" +:+ Bootstrap.file_path (Bootstrap.metadata cfg))
                        (Bootstrap.alias (Bootstrap.catalog cfg))
                        (Some (Bootstrap.data_path (Bootstrap.storage cfg)))) = None
    ∧ rejects w1 = rejects w
    ∧ secrets w1 !! "minio" = Some sql
    ∧ attached w1 !! Bootstrap.alias (Bootstrap.catalog cfg)
      = Some ("ducklake:" +:+ Bootstrap.file_path (Bootstrap.metadata cfg)).
Proof.
  unfold Bootstrap.attach_ducklake. intros H.
  apply bind_ok in H as ([] & wa & Ha & H).
  apply bind_ok in H as ([] & wb & Hb & H).
  apply bind_ok in H as ([] & wc & Hc & H).
  injection Ha as <-.
  apply ensure_minio_secret_ok in Hb as (sql & Hsql & Hr & Hatt & Hcur & Hrej & Hsec).
  apply execute_ok in Hc as [Hr2 Hc]. cbn in Hc.
  destruct (attached wb !! _) eqn:E; [done|]. injection Hc as <-.
  apply execute_ok in H as [Hr3 H]. cbn in H.
  rewrite lookup_insert_eq in H. injection H as <-.
  exists sql. cbn. rewrite Hrej in Hr2. cbn in Hr2.
  repeat split; try done.
  - by rewrite Hsec, lookup_insert_eq.
  - apply lookup_insert_eq.
Qed.

(** C5 (amended). After an attach that succeeded, running attach again on
    the same session sends the secret statement again, which is accepted
    and replaces the secret by itself, and then raises at the ATTACH
    statement, because the alias is already bound; the catalog is left as
    the first attach made it. *)
Theorem attach_again_raises (cfg : Bootstrap.AppConfig) (w w1 : World) :
  Bootstrap.attach_ducklake cfg w = (Ok tt, w1) →
  (∃ w2, Bootstrap.ensure_minio_secret (Bootstrap.storage cfg) "minio" w1
         = (Ok tt, w2)
         ∧ secrets w2 = secrets w1)
  ∧ (∃ w2, Bootstrap.attach_ducklake cfg w1
           = (Raise (already_exists (Bootstrap.alias (Bootstrap.catalog cfg))), w2)
           ∧ attached w2 = attached w1 ∧ secrets w2 = secrets w1
           ∧ current w2 = current w1).
Proof.
  intros (sql & Hsql & Hr1 & Hr2 & Hrej & Hsec & Hatt)%attach_ducklake_ok.
  split.
  - destruct (ensure_minio_secret_again _ "minio" sql w1 Hsql) as (w2 & H & Hs & _);
      [by rewrite Hrej | done |].
    by exists w2.
  - destruct (ensure_minio_secret_again _ "minio" sql
                (log (Makedirs (DirOfAbs (Bootstrap.file_path (Bootstrap.metadata cfg)))) w1)
                Hsql)
      as (w2 & H & Hs & Ha & Hc & Hr); [by cbn; rewrite Hrej | done |].
    unfold Bootstrap.attach_ducklake, bind at 1, makedirs.
    unfold bind at 1. rewrite H.
    unfold bind at 1, execute. rewrite Hr. cbn. rewrite Hrej, Hr2. cbn.
    rewrite Ha. cbn. rewrite Hatt.
    eexists. split; [done|]. cbn. by rewrite Hs, Ha, Hc.
Qed.

(** C5 on the starter configuration: the first attach on a new connection
    succeeds, the second raises. *)
Lemma attach_again_raises_witness :
  let w1 := (Bootstrap.attach_ducklake Examples.app_config Examples.calm).2 in
  Bootstrap.attach_ducklake Examples.app_config Examples.calm = (Ok tt, w1)
  ∧ ∃ w2, Bootstrap.attach_ducklake Examples.app_config w1
          = (Raise (already_exists "my_ducklake"), w2)
          ∧ attached w2 = attached w1 ∧ secrets w2 = secrets w1
          ∧ current w2 = current w1.
Proof.
  split; [reflexivity|].
  apply (proj2 (attach_again_raises Examples.app_config Examples.calm
                  (Bootstrap.attach_ducklake Examples.app_config Examples.calm).2
                  eq_refl)).
Defined.

(** C5 as stated fails: attach, then attach again with the same metadata
    path and alias on the same session, raises. *)
Lemma second_attach_raises :
  (Bootstrap.attach_ducklake Examples.app_config Examples.calm).1 = Ok tt
  ∧ (Bootstrap.attach_ducklake Examples.app_config
       (Bootstrap.attach_ducklake Examples.app_config Examples.calm).2).1
    = Raise (Exn EngineError
               "Binder Error: Failed to attach database: database with name my_ducklake already exists").
Proof. by vm_compute. Qed.

(* ===================================================================== *)
(** ** The secret statement                                               *)
(* ===================================================================== *)

Lemma app_cons (a : ascii) (s t : string) :
  String a s +:+ t = String a (s +:+ t).
Proof. reflexivity. Qed.

Lemma app_nil_l_str (t : string) : "" +:+ t = t.
Proof. reflexivity. Qed.

Lemma app_nil_r_str (t : string) : t +:+ "" = t.
Proof. induction t as [|x t IH]; [done|]. by rewrite app_cons, IH. Qed.

Lemma app_assoc_str (a b c : string) : (a +:+ b) +:+ c = a +:+ (b +:+ c).
Proof.
  induction a as [|x a IH]; [done|]. by rewrite !app_cons, IH.
Qed.

Lemma prefix_nil (s : string) : String.prefix "" s = true.
Proof. by destruct s. Qed.

Lemma prefix_app_self (a b : string) : String.prefix a (a +:+ b) = true.
Proof.
  induction a as [|x a IH]; [apply prefix_nil|].
  rewrite app_cons. cbn [String.prefix].
  destruct (ascii_dec x x); [exact IH | done].
Qed.

Lemma prefix_app_r (o s r : string) :
  String.prefix o s = true → String.prefix o (s +:+ r) = true.
Proof.
  revert s. induction o as [|x o IH]; intros s; [intros _; apply prefix_nil|].
  destruct s as [|y s]; [done|]. rewrite app_cons. cbn [String.prefix].
  destruct (ascii_dec x y); [apply IH | done].
Qed.

Lemma contains_cons sub a s :
  contains sub (String a s) = String.prefix sub (String a s) || contains sub s.
Proof. reflexivity. Qed.

Lemma contains_skip sub a s :
  contains sub s = true → contains sub (a +:+ s) = true.
Proof.
  intros H. induction a as [|x a IH]; [done|].
  rewrite app_cons, contains_cons, IH. apply orb_true_r.
Qed.

Lemma contains_here sub r : contains sub (sub +:+ r) = true.
Proof.
  destruct sub as [|x sub].
  - by destruct r.
  - by rewrite app_cons, contains_cons, <- app_cons, prefix_app_self.
Qed.

Lemma contains_app_l sub a r :
  contains sub a = true → contains sub (a +:+ r) = true.
Proof.
  induction a as [|x a IH].
  - destruct sub; [by destruct r | done].
  - rewrite app_cons, !contains_cons. intros [H|H]%orb_true_iff.
    + rewrite <- app_cons, (prefix_app_r _ _ _ H). done.
    + rewrite (IH H). apply orb_true_r.
Qed.

Lemma prefix_app_cancel (a b c : string) :
  String.prefix (a +:+ b) (a +:+ c) = String.prefix b c.
Proof.
  induction a as [|x a IH]; [done|].
  rewrite !app_cons. cbn [String.prefix].
  destruct (ascii_dec x x); [exact IH | done].
Qed.

Lemma contains_prefix sub s : String.prefix sub s = true → contains sub s = true.
Proof. intros H. destruct s; cbn [contains]; by rewrite H. Qed.

Lemma brace_free_app (a b : string) :
  brace_free (a +:+ b) = brace_free a && brace_free b.
Proof.
  induction a as [|x a IH]; [done|].
  rewrite app_cons. cbn [brace_free]. rewrite IH. by rewrite andb_assoc.
Qed.

(** [str.format] leaves a text without braces as it is. *)
Lemma format_brace_free name s :
  brace_free s = true → format_go name FText s = Ok s.
Proof.
  induction s as [|x s IH]; [done|]. cbn [brace_free format_go].
  intros [[Ho Hc]%andb_true_iff Hs]%andb_true_iff.
  apply negb_true_iff in Ho, Hc. rewrite Ho, Hc, (IH Hs). done.
Qed.

Lemma format_text name a r :
  brace_free a = true →
  format_go name FText (a +:+ r)
  = obind (format_go name FText r) (fun x => Ok (a +:+ x)).
Proof.
  induction a as [|x a IH].
  - intros _. rewrite app_nil_l_str. by destruct (format_go name FText r).
  - cbn [brace_free]. intros [[Ho Hc]%andb_true_iff Hs]%andb_true_iff.
    apply negb_true_iff in Ho, Hc.
    rewrite app_cons. cbn [format_go]. rewrite Ho, Hc, (IH Hs).
    by destruct (format_go name FText r).
Qed.

Lemma format_name_field name r :
  format_go name FText ("{name}" +:+ r)
  = obind (format_go name FText r) (fun x => Ok (name +:+ x)).
Proof. reflexivity. Qed.

(** The lines after the first hold no brace when the interpolated values
    hold none. *)
Lemma secret_tail_brace_free (st : Bootstrap.StorageMinIO) :
  brace_free (str_opt (Bootstrap.access_key st)) = true →
  brace_free (str_opt (Bootstrap.secret_key st)) = true →
  brace_free (Bootstrap.strip_scheme (Bootstrap.endpoint st)) = true →
  brace_free (Bootstrap.url_style st) = true →
  brace_free (Bootstrap.region st) = true →
  brace_free (join nl (tail (Bootstrap.secret_parts st))) = true.
Proof.
  intros Ha Hs He Hu Hr. unfold Bootstrap.secret_parts.
  destruct (truthy_opt _ && truthy_opt _), (Bootstrap.use_ssl st);
    cbn [app tail join];
    rewrite ?brace_free_app, ?Ha, ?Hs, ?He, ?Hu, ?Hr; reflexivity.
Qed.

(** The statement for a storage whose interpolated values hold no brace:
    it is generated, it holds the line of the endpoint with what
    [replace] left of it, and the line of the TLS flag with the literal
    [true] or [false]. *)
Lemma create_secret_sql_brace_free (st : Bootstrap.StorageMinIO) (name : string) :
  brace_free (str_opt (Bootstrap.access_key st)) = true →
  brace_free (str_opt (Bootstrap.secret_key st)) = true →
  brace_free (Bootstrap.strip_scheme (Bootstrap.endpoint st)) = true →
  brace_free (Bootstrap.url_style st) = true →
  brace_free (Bootstrap.region st) = true →
  ∃ sql,
    Bootstrap.create_secret_sql st name = Ok sql
    ∧ contains ("  ENDPOINT '" +:+ Bootstrap.strip_scheme (Bootstrap.endpoint st)
                +:+ "'," +:+ nl) sql = true
    ∧ contains ("  USE_SSL "
                +:+ (if Bootstrap.use_ssl st then "true" else "false")
                +:+ "," +:+ nl) sql = true.
Proof.
  intros Ha Hs He Hu Hr.
  pose proof (secret_tail_brace_free st Ha Hs He Hu Hr) as Ht.
  exists ("CREATE OR REPLACE SECRET " +:+ name +:+ " (" +:+ nl
          +:+ join nl (tail (Bootstrap.secret_parts st))).
  split.
  - unfold Bootstrap.create_secret_sql, format.
    change (join nl (Bootstrap.secret_parts st))
      with ("CREATE OR REPLACE SECRET "
            +:+ "{name}" +:+ (" (" +:+ nl +:+ join nl (tail (Bootstrap.secret_parts st)))).
    rewrite format_text by reflexivity.
    rewrite format_name_field.
    rewrite format_brace_free; [done|].
    by rewrite !brace_free_app, Ht.
  - unfold Bootstrap.secret_parts.
    destruct (truthy_opt _ && truthy_opt _); cbn [app tail join]; split.
    all: rewrite !app_assoc_str.
    all: repeat first
      [ apply contains_prefix; rewrite ?prefix_app_cancel;
        solve [apply prefix_app_self]
      | apply contains_skip ].
Qed.

Lemma prefix_split (o s : string) :
  String.prefix o s = true → ∃ r, s = o +:+ r.
Proof.
  revert s. induction o as [|x o IH]; intros s; [by exists s|].
  destruct s as [|y s]; [done|]. cbn [String.prefix].
  destruct (ascii_dec x y) as [->|]; [|done].
  intros [r ->]%IH. by exists r.
Qed.

(** A text without the separator holds no occurrence of a text with it. *)
Lemma replace_none (old host : string) :
  contains "/" old = true → contains "/" host = false →
  replace old "" host = host.
Proof.
  intros Ho. unfold replace.
  induction host as [|a s IH]; [done|].
  intros Hc. pose proof Hc as Hc'.
  rewrite contains_cons in Hc'. apply orb_false_iff in Hc' as [_ Hs].
  cbn [replace_go].
  destruct (String.prefix old (String a s)) eqn:E.
  - apply prefix_split in E as [r E].
    rewrite E, (contains_app_l _ _ _ Ho) in Hc. done.
  - by rewrite (IH Hs).
Qed.

Lemma replace_go_skip (old new a r : string) :
  replace_go old new (String.length a) (a +:+ r) = replace_go old new 0 r.
Proof.
  induction a as [|x a IH]; [by destruct r|].
  rewrite app_cons. exact IH.
Qed.

(** An occurrence at the front is removed and the scan goes on behind it. *)
Lemma replace_front (x : ascii) (o r : string) :
  replace (String x o) "" (String x o +:+ r) = replace (String x o) "" r.
Proof.
  unfold replace. rewrite app_cons at 1. cbn [replace_go].
  rewrite <- app_cons, prefix_app_self.
  change (String.length (String x o) - 1) with (String.length o - 0).
  rewrite Nat.sub_0_r, app_nil_l_str. apply replace_go_skip.
Qed.

(** On an endpoint that is a host and a port (no separator in it) behind
    an optional scheme, the two replacements remove exactly the scheme. *)
Lemma strip_scheme_leading (host : string) :
  contains "/" host = false →
  Bootstrap.strip_scheme ("http://" +:+ host) = host
  ∧ Bootstrap.strip_scheme ("https://" +:+ host) = host
  ∧ Bootstrap.strip_scheme host = host.
Proof.
  intros H.
  assert (replace "http://" "" host = host) as H1 by by apply replace_none.
  assert (replace "https://" "" host = host) as H2 by by apply replace_none.
  unfold Bootstrap.strip_scheme. repeat split.
  - by rewrite replace_front, H1, H2.
  - assert (replace "http://" "" ("https://" +:+ host) = "https://" +:+ host) as ->.
    { unfold replace in *.
      change ("https://" +:+ host)
        with (String "h" (String "t" (String "t" (String "p" (String "s"
               (String ":" (String "/" (String "/" host)))))))).
      cbn. by rewrite H1. }
    by rewrite replace_front, H2.
  - by rewrite H1, H2.
Qed.

(** C7. With the secret key [s3cr{t] (credentials present and non-empty)
    no statement is generated: the joined lines, the interpolated secret
    included, go through [str.format], which takes the brace for the start
    of a replacement field, the colon of the endpoint for the start of its
    format specification, and raises. The claim holds when no interpolated
    value holds a brace (lemma [create_secret_sql_brace_free]). *)
Theorem create_secret_sql_brace_raises :
  Bootstrap.create_secret_sql
    (Examples.storage_of "tpch/" (Some "minioadmin") (Some "s3cr{t")) "minio"
  = Raise (Exn ValueError "unmatched '{' in format spec").
Proof. by vm_compute. Qed.

(* ===================================================================== *)
(** ** Credentials                                                        *)
(* ===================================================================== *)

Lemma get_str_typed (m : section) (k dflt : string) :
  Spec.str_or_absent m k = true → ∃ s, Bootstrap.get_str m k dflt = Ok s.
Proof.
  unfold Spec.str_or_absent, Bootstrap.get_str.
  destruct (m !! k) as [[]|]; try done; by eexists.
Qed.

Lemma get_opt_str_access (env : gmap string string) (st : section) :
  Spec.opt_str_or_absent st "access_key" = true →
  Bootstrap.get_opt_str st "access_key" (env !! "MINIO_ACCESS_KEY")
  = Ok (Spec.resolved_access_key env st).
Proof.
  unfold Spec.opt_str_or_absent, Bootstrap.get_opt_str, Spec.resolved_access_key.
  by destruct (st !! "access_key") as [[]|].
Qed.

Lemma get_opt_str_secret (env : gmap string string) (st : section) :
  Spec.opt_str_or_absent st "secret_key" = true →
  Bootstrap.get_opt_str st "secret_key"
    (or_opt (env !! "MINIO_SECRET_KEY") (env !! "MINIO_SECRET_ACCESS_KEY"))
  = Ok (Spec.resolved_secret_key env st).
Proof.
  unfold Spec.opt_str_or_absent, Bootstrap.get_opt_str, Spec.resolved_secret_key.
  by destruct (st !! "secret_key") as [[]|].
Qed.

Lemma py_int_typed (m : section) (k : string) (dflt : Z) :
  Spec.int_or_absent m k = true →
  ∃ z, Bootstrap.py_int (default (PInt dflt) (m !! k)) = Ok z.
Proof.
  unfold Spec.int_or_absent.
  destruct (m !! k) as [[]|]; try done; by eexists.
Qed.

(** [from_dict] on a document of the declared types: the verdict depends
    on the two resolved credentials only. *)
Lemma from_dict_typed (env : gmap string string) (d : document) :
  Spec.typed_document d = true →
  let st := default ∅ (d !! "storage") in
  let ak := Spec.resolved_access_key env st in
  let sk := Spec.resolved_secret_key env st in
  if negb (truthy_opt ak) then
    Bootstrap.from_dict env d = Raise Bootstrap.missing_access_key
  else if negb (truthy_opt sk) then
    Bootstrap.from_dict env d = Raise Bootstrap.missing_secret_key
  else
    ∃ cfg, Bootstrap.from_dict env d = Ok cfg
           ∧ Bootstrap.access_key (Bootstrap.storage cfg) = ak
           ∧ Bootstrap.secret_key (Bootstrap.storage cfg) = sk.
Proof.
  unfold Spec.typed_document. cbv zeta.
  intros H. repeat (apply andb_true_iff in H as [H ?]).
  unfold Bootstrap.from_dict. cbv zeta.
  destruct (get_str_typed (default ∅ (d !! "storage")) "bucket" "ducklake-data")
    as [b ->]; [done|].
  destruct (get_str_typed (default ∅ (d !! "storage")) "prefix" "tpch/")
    as [p ->]; [done|].
  destruct (get_str_typed (default ∅ (d !! "storage")) "endpoint"
              "http://localhost:9000") as [e ->]; [done|].
  destruct (get_str_typed (default ∅ (d !! "storage")) "region" "us-east-1")
    as [r ->]; [done|].
  rewrite get_opt_str_access, get_opt_str_secret by done.
  destruct (get_str_typed (default ∅ (d !! "storage")) "url_style" "path")
    as [u ->]; [done|].
  cbn [obind].
  destruct (negb (truthy_opt (Spec.resolved_access_key env _))); [done|].
  destruct (negb (truthy_opt (Spec.resolved_secret_key env _))); [done|].
  destruct (get_str_typed (default ∅ (d !! "metadata")) "duckdb_file"
              "./metadata.ducklake") as [f ->]; [done|].
  destruct (get_str_typed (default ∅ (d !! "catalog")) "alias" "my_ducklake")
    as [a ->]; [done|].
  destruct (py_int_typed (default ∅ (d !! "tpch")) "default_scale" 1)
    as [z ->]; [done|].
  cbn [obind]. by eexists.
Qed.

(** A configuration that does not resolve stops the command before the
    first step towards the engine, the file system or the network. *)
Lemma config_error_before_engine env d e w :
  Bootstrap.from_dict env d = Raise e →
  Bootstrap.cmd_attach env d w = (Raise e, w)
  ∧ ∀ scale_arg, Bootstrap.cmd_load_tpch env d scale_arg w = (Raise e, w).
Proof.
  intros H. split; [|intros scale_arg].
  - unfold Bootstrap.cmd_attach, Bootstrap.load_config, bind at 1, lift.
    by rewrite H.
  - unfold Bootstrap.cmd_load_tpch, Bootstrap.load_config, bind at 1, lift.
    by rewrite H.
Qed.

(** The secret statement of the validator: the key id and the secret are
    the values of the document or, without them, [minioadmin]; nothing is
    checked and the environment is not read. *)
Lemma validator_secret_defaults (cfg : document) (m : section) (e : string) :
  cfg !! "storage" = Some m →
  m !! "endpoint" = Some (PStr e) →
  ∃ text,
    Validator.secret_sql cfg = Ok text
    ∧ contains ("KEY_ID '" +:+ str (default (PStr "minioadmin") (m !! "access_key"))
                +:+ "'," +:+ nl) text = true
    ∧ contains ("SECRET '" +:+ str (default (PStr "minioadmin") (m !! "secret_key"))
                +:+ "'," +:+ nl) text = true.
Proof.
  intros Hs He.
  unfold Validator.secret_sql, Validator.storage_get, Validator.getitem2.
  rewrite Hs, He. cbn [obind].
  eexists. split; [reflexivity|]. split.
  all: repeat first
    [ apply contains_prefix; rewrite ?prefix_app_cancel;
      solve [apply prefix_app_self]
    | apply contains_skip ].
Qed.

(** C4 (amended). On the bootstrap path, for a document of the declared
    types, each credential is the value under its key in the storage
    section when the key is there, else the environment variable. When the
    access key or the secret key so resolved is missing or empty,
    [from_dict] raises a [ValueError] and the commands stop there, before
    any step towards the engine, the file system or the network; when both
    are non-empty it returns the configuration with these credentials. The
    session opener of the validator checks nothing: it takes the values of
    the document or, without them, [minioadmin]. *)
Theorem credential_resolution (env : gmap string string) (d : document) :
  Spec.typed_document d = true →
  let st := default ∅ (d !! "storage") in
  let ak := Spec.resolved_access_key env st in
  let sk := Spec.resolved_secret_key env st in
  (if negb (truthy_opt ak) || negb (truthy_opt sk) then
     ∃ e, exn_cls e = ValueError
          ∧ Bootstrap.from_dict env d = Raise e
          ∧ ∀ w, Bootstrap.cmd_attach env d w = (Raise e, w)
                 ∧ ∀ scale_arg,
                     Bootstrap.cmd_load_tpch env d scale_arg w = (Raise e, w)
   else
     ∃ cfg, Bootstrap.from_dict env d = Ok cfg
            ∧ Bootstrap.access_key (Bootstrap.storage cfg) = ak
            ∧ Bootstrap.secret_key (Bootstrap.storage cfg) = sk)
  ∧ (∀ m e, d !! "storage" = Some m → m !! "endpoint" = Some (PStr e) →
       ∃ text,
         Validator.secret_sql d = Ok text
         ∧ contains ("KEY_ID '"
                     +:+ str (default (PStr "minioadmin") (m !! "access_key"))
                     +:+ "'," +:+ nl) text = true
         ∧ contains ("SECRET '"
                     +:+ str (default (PStr "minioadmin") (m !! "secret_key"))
                     +:+ "'," +:+ nl) text = true).
Proof.
  intros Ht. cbv zeta. split.
  - pose proof (from_dict_typed env d Ht) as H. cbv zeta in H.
    destruct (negb (truthy_opt (Spec.resolved_access_key env _))); cbn [orb].
    + exists Bootstrap.missing_access_key. split; [done|]. split; [done|].
      intros w. by apply config_error_before_engine.
    + destruct (negb (truthy_opt (Spec.resolved_secret_key env _))); [|done].
      exists Bootstrap.missing_secret_key. split; [done|]. split; [done|].
      intros w. by apply config_error_before_engine.
  - intros m e. apply validator_secret_defaults.
Qed.

(** C4 on the starter document: without credentials anywhere the attach
    command stops with a [ValueError] and a world left as it was; with the
    two variables set in the environment the configuration resolves to
    them. *)
Lemma credential_resolution_witness :
  (∃ e, exn_cls e = ValueError
        ∧ Bootstrap.from_dict ∅ Examples.starter_doc = Raise e
        ∧ ∀ w, Bootstrap.cmd_attach ∅ Examples.starter_doc w = (Raise e, w)
               ∧ ∀ scale_arg,
                   Bootstrap.cmd_load_tpch ∅ Examples.starter_doc scale_arg w
                   = (Raise e, w))
  ∧ (∃ cfg, Bootstrap.from_dict Examples.minio_env Examples.starter_doc = Ok cfg
            ∧ Bootstrap.access_key (Bootstrap.storage cfg) = Some "root"
            ∧ Bootstrap.secret_key (Bootstrap.storage cfg) = Some "hunter22").
Proof.
  split.
  - exact (proj1 (credential_resolution ∅ Examples.starter_doc eq_refl)).
  - exact (proj1 (credential_resolution Examples.minio_env Examples.starter_doc
                    eq_refl)).
Defined.

(** C4 as stated fails on the path of the validator: from the document
    that the bootstrap refuses for its missing access key, [open_ducklake]
    opens its session, with [minioadmin] as key id and as secret. *)
Lemma validator_opens_without_credentials :
  Bootstrap.from_dict ∅ Examples.starter_doc = Raise Bootstrap.missing_access_key
  ∧ Validator.open_ducklake Examples.starter_doc Examples.accepting_con = Ok tt
  ∧ obind (Validator.secret_sql Examples.starter_doc)
          (fun text => Ok (contains "KEY_ID 'minioadmin'," text
                           && contains "SECRET 'minioadmin'," text))
    = Ok true.
Proof. by vm_compute. Qed.

(* ===================================================================== *)
(** ** More on the configuration                                          *)
(* ===================================================================== *)

Ltac step_obind H :=
  match type of H with
  | obind ?x _ = Ok _ =>
      let E := fresh "E" in
      destruct x eqn:E; cbn [obind] in H; [|discriminate H|discriminate H]
  end.

(** X1. Whatever the document and the environment, a configuration that
    [from_dict] returns has a non-empty access key and a non-empty secret
    key, so the secret statement built from it always carries the two
    credential lines. *)
Theorem from_dict_credentials_present (env : gmap string string) (d : document)
    (cfg : Bootstrap.AppConfig) :
  Bootstrap.from_dict env d = Ok cfg →
  ∃ ak sk,
    Bootstrap.access_key (Bootstrap.storage cfg) = Some ak ∧ ak ≠ ""
    ∧ Bootstrap.secret_key (Bootstrap.storage cfg) = Some sk ∧ sk ≠ ""
    ∧ ("  KEY_ID '" +:+ ak +:+ "',") ∈ Bootstrap.secret_parts (Bootstrap.storage cfg)
    ∧ ("  SECRET '" +:+ sk +:+ "',") ∈ Bootstrap.secret_parts (Bootstrap.storage cfg).
Proof.
  unfold Bootstrap.from_dict. cbv zeta. intros H.
  do 7 step_obind H.
  destruct (negb (truthy_opt a3)) eqn:Ha; [discriminate H|].
  destruct (negb (truthy_opt a4)) eqn:Hs; [discriminate H|].
  do 3 step_obind H. injection H as <-. cbn.
  apply negb_false_iff in Ha, Hs.
  destruct a3 as [ak|]; [|done]. destruct a4 as [sk|]; [|done].
  exists ak, sk. cbn in Ha, Hs.
  unfold Bootstrap.secret_parts. cbn. rewrite Ha, Hs. cbn.
  repeat split.
  - intros ->. done.
  - intros ->. done.
  - set_solver.
  - set_solver.
Qed.

(** X1 on the starter document with the credentials in the environment. *)
Lemma from_dict_credentials_present_witness :
  ∃ cfg ak sk,
    Bootstrap.from_dict Examples.minio_env Examples.starter_doc = Ok cfg
    ∧ Bootstrap.access_key (Bootstrap.storage cfg) = Some ak ∧ ak ≠ ""
    ∧ Bootstrap.secret_key (Bootstrap.storage cfg) = Some sk ∧ sk ≠ ""
    ∧ ("  KEY_ID '" +:+ ak +:+ "',") ∈ Bootstrap.secret_parts (Bootstrap.storage cfg)
    ∧ ("  SECRET '" +:+ sk +:+ "',") ∈ Bootstrap.secret_parts (Bootstrap.storage cfg).
Proof.
  eexists.
  destruct (from_dict_credentials_present Examples.minio_env Examples.starter_doc
              _ eq_refl) as (ak & sk & H).
  by exists ak, sk.
Defined.

(** X2. A credential key that is written in the storage section with a
    null or empty value is not replaced by the environment variable:
    resolution raises the error of the missing access key whatever the
    environment holds. *)
Theorem empty_config_key_blocks_environment (env : gmap string string)
    (d : document) (st : section) (v : pyval) :
  Spec.typed_document d = true →
  d !! "storage" = Some st →
  st !! "access_key" = Some v →
  truthy v = false →
  Bootstrap.from_dict env d = Raise Bootstrap.missing_access_key.
Proof.
  intros Ht Hs Hk Hv.
  pose proof (from_dict_typed env d Ht) as H. cbv zeta in H.
  rewrite Hs in H. change (default ∅ (Some st)) with st in H.
  unfold Spec.resolved_access_key in H at 1. rewrite Hk in H.
  destruct v as [|b|z|s]; cbn in H; try exact H.
  cbn in Hv. by rewrite Hv in H.
Qed.

(** X2 with an empty access key in the document and a full environment. *)
Lemma empty_config_key_blocks_environment_witness :
  Bootstrap.from_dict Examples.minio_env Examples.empty_key_doc
  = Raise Bootstrap.missing_access_key.
Proof.
  apply (empty_config_key_blocks_environment Examples.minio_env
           Examples.empty_key_doc
           (<[ "access_key" := PStr "" ]> (Examples.storage_section "tpch/"))
           (PStr "")); reflexivity.
Defined.

(** X3. Without credential keys in the document, the secret key is the
    first non-empty one of MINIO_SECRET_KEY and MINIO_SECRET_ACCESS_KEY: an
    empty MINIO_SECRET_KEY falls through to the second variable. *)
Theorem secret_key_environment_fallback (env : gmap string string)
    (d : document) (ak sk : string) :
  Spec.typed_document d = true →
  default ∅ (d !! "storage") !! "access_key" = None →
  default ∅ (d !! "storage") !! "secret_key" = None →
  env !! "MINIO_ACCESS_KEY" = Some ak → ak ≠ "" →
  truthy_opt (env !! "MINIO_SECRET_KEY") = false →
  env !! "MINIO_SECRET_ACCESS_KEY" = Some sk → sk ≠ "" →
  ∃ cfg, Bootstrap.from_dict env d = Ok cfg
         ∧ Bootstrap.access_key (Bootstrap.storage cfg) = Some ak
         ∧ Bootstrap.secret_key (Bootstrap.storage cfg) = Some sk.
Proof.
  intros Ht Ha Hs Hak Hak' Hsk1 Hsk2 Hsk'.
  pose proof (from_dict_typed env d Ht) as H. cbv zeta in H.
  unfold Spec.resolved_access_key, Spec.resolved_secret_key, or_opt in H.
  rewrite Ha, Hs, Hak, Hsk1, Hsk2 in H. cbn in H.
  apply String.eqb_neq in Hak', Hsk'. rewrite Hak', Hsk' in H. exact H.
Qed.

(** X3 with MINIO_SECRET_KEY set to the empty string. *)
Lemma secret_key_environment_fallback_witness :
  ∃ cfg, Bootstrap.from_dict Examples.fallback_env Examples.starter_doc = Ok cfg
         ∧ Bootstrap.access_key (Bootstrap.storage cfg) = Some "root"
         ∧ Bootstrap.secret_key (Bootstrap.storage cfg) = Some "hunter22".
Proof.
  apply (secret_key_environment_fallback Examples.fallback_env
           Examples.starter_doc "root" "hunter22");
    first [reflexivity | discriminate].
Defined.

(** X4. The TLS flag is the truth value of whatever stands under
    [use_ssl]: a non-empty string, the word "false" included, switches TLS
    on, and the secret statement then says [USE_SSL true]. *)
Theorem quoted_use_ssl_is_true (env : gmap string string) (d : document)
    (st : section) (word : string) (cfg : Bootstrap.AppConfig) :
  d !! "storage" = Some st →
  st !! "use_ssl" = Some (PStr word) → word ≠ "" →
  Bootstrap.from_dict env d = Ok cfg →
  Bootstrap.use_ssl (Bootstrap.storage cfg) = true
  ∧ "  USE_SSL true," ∈ Bootstrap.secret_parts (Bootstrap.storage cfg).
Proof.
  intros Hs Hu Hw. unfold Bootstrap.from_dict. cbv zeta.
  rewrite Hs. change (default ∅ (Some st)) with st. rewrite Hu.
  intros H. do 7 step_obind H.
  destruct (negb (truthy_opt _)); [discriminate H|].
  destruct (negb (truthy_opt _)); [discriminate H|].
  do 3 step_obind H. injection H as <-.
  apply String.eqb_neq in Hw.
  unfold Bootstrap.secret_parts. cbn. rewrite Hw. cbn.
  split; [done|]. set_solver.
Qed.

(** X4 on a document that says [use_ssl: "false"]. *)
Lemma quoted_use_ssl_is_true_witness :
  ∃ cfg,
    Bootstrap.from_dict ∅ Examples.quoted_ssl_doc = Ok cfg
    ∧ Bootstrap.use_ssl (Bootstrap.storage cfg) = true
    ∧ "  USE_SSL true," ∈ Bootstrap.secret_parts (Bootstrap.storage cfg).
Proof.
  eexists. split; [reflexivity|].
  apply (quoted_use_ssl_is_true ∅ Examples.quoted_ssl_doc
           (<[ "use_ssl" := PStr "false" ]> (Examples.storage_with_keys "tpch/"))
           "false"); first [reflexivity | discriminate].
Defined.

(* ===================================================================== *)
(** ** More on the data root and the endpoint                             *)
(* ===================================================================== *)

Lemma lstrip_all c l s : all_char c l = true → lstrip c (l +:+ s) = lstrip c s.
Proof.
  induction l as [|x l IH]; [done|]. cbn [all_char].
  intros [Hx Hl]%andb_true_iff. rewrite app_cons. cbn [lstrip].
  rewrite Hx. by apply IH.
Qed.

Lemma rstrip_all c r : all_char c r = true → rstrip c r = "".
Proof.
  induction r as [|x r IH]; [done|]. cbn [all_char rstrip].
  intros [Hx Hr]%andb_true_iff. by rewrite (IH Hr), Hx.
Qed.

Lemma rstrip_app_all c s r :
  all_char c r = true → rstrip c (s +:+ r) = rstrip c s.
Proof.
  intros Hr. induction s as [|x s IH].
  - rewrite app_nil_l_str. by apply rstrip_all.
  - rewrite app_cons. cbn [rstrip]. by rewrite IH.
Qed.

Lemma lstrip_app c s r :
  all_char c r = true →
  lstrip c (s +:+ r) = lstrip c s +:+ (if all_char c s then "" else r).
Proof.
  intros Hr. induction s as [|x s IH].
  - rewrite app_nil_l_str. cbn. destruct (lstrip_spec c r) as (l & Hl & _ & _).
    clear Hl l. induction r as [|y r IHr]; [done|].
    cbn [all_char] in Hr. apply andb_true_iff in Hr as [Hy Hr].
    cbn [lstrip]. rewrite Hy. by apply IHr.
  - rewrite app_cons. cbn [lstrip all_char].
    destruct (Ascii.eqb x c); [exact IH | done].
Qed.

(** Separators around a text do not change what [strip] returns. *)
Lemma strip_surrounded c l s r :
  all_char c l = true → all_char c r = true →
  strip c (l +:+ s +:+ r) = strip c s.
Proof.
  intros Hl Hr. unfold strip.
  rewrite (lstrip_all _ _ _ Hl), (lstrip_app _ _ _ Hr).
  destruct (all_char c s); [by rewrite app_nil_r_str | by apply rstrip_app_all].
Qed.

Lemma last_char_app_slash (s : string) : last_char (s +:+ "/") = Some "/"%char.
Proof.
  induction s as [|x s IH]; [done|]. rewrite app_cons. cbn [last_char].
  destruct (s +:+ "/") eqn:E; [by destruct s | exact IH].
Qed.

(** X5. The data root does not depend on how many separators surround the
    prefix, and it always ends with one separator. *)
Theorem data_path_ignores_surrounding_separators
    (st : Bootstrap.StorageMinIO) (l p r : string) :
  all_char "/" l = true → all_char "/" r = true →
  Bootstrap.data_path (Examples.with_prefix st (l +:+ p +:+ r))
  = Bootstrap.data_path (Examples.with_prefix st p)
  ∧ last_char (Bootstrap.data_path (Examples.with_prefix st p)) = Some "/"%char.
Proof.
  intros Hl Hr. unfold Bootstrap.data_path. cbn [Bootstrap.prefix Examples.with_prefix
    Bootstrap.bucket].
  rewrite (strip_surrounded _ _ _ _ Hl Hr). split; [done|].
  destruct (negb _).
  - rewrite <- !app_assoc_str. apply last_char_app_slash.
  - rewrite <- !app_assoc_str. apply last_char_app_slash.
Qed.

(** X5 on the prefix [a/b] written as [//a/b/]. *)
Lemma data_path_ignores_surrounding_separators_witness :
  Bootstrap.data_path
    (Examples.with_prefix (Examples.storage_of "" None None) "//a/b/")
  = "s3://lake/a/b/".
Proof.
  apply (eq_trans (proj1 (data_path_ignores_surrounding_separators
                            (Examples.storage_of "" None None) "//" "a/b" "/"
                            eq_refl eq_refl))).
  reflexivity.
Defined.

(** X6. For an endpoint made of a host and a port, with or without a
    leading [http://] or [https://], the text put into the secret statement
    is the host and port alone. *)
Theorem scheme_removed_from_host_port (host : string) :
  contains "/" host = false →
  Bootstrap.strip_scheme ("http://" +:+ host) = host
  ∧ Bootstrap.strip_scheme ("https://" +:+ host) = host
  ∧ Bootstrap.strip_scheme host = host.
Proof. apply strip_scheme_leading. Qed.

(** X6 on [localhost:9000]. *)
Lemma scheme_removed_from_host_port_witness :
  Bootstrap.strip_scheme "http://localhost:9000" = "localhost:9000"
  ∧ Bootstrap.strip_scheme "https://localhost:9000" = "localhost:9000"
  ∧ Bootstrap.strip_scheme "localhost:9000" = "localhost:9000".
Proof. exact (scheme_removed_from_host_port "localhost:9000" eq_refl). Defined.

(** X7. When none of the interpolated values (access key, secret key,
    endpoint after the replacements, URL style, region) holds a brace, the
    secret statement is generated; it holds the endpoint line with the
    endpoint as the replacements left it, and the TLS line with the literal
    [true] or [false] according to the flag. *)
Theorem secret_statement_without_braces (st : Bootstrap.StorageMinIO)
    (name : string) :
  brace_free (str_opt (Bootstrap.access_key st)) = true →
  brace_free (str_opt (Bootstrap.secret_key st)) = true →
  brace_free (Bootstrap.strip_scheme (Bootstrap.endpoint st)) = true →
  brace_free (Bootstrap.url_style st) = true →
  brace_free (Bootstrap.region st) = true →
  ∃ sql,
    Bootstrap.create_secret_sql st name = Ok sql
    ∧ contains ("  ENDPOINT '" +:+ Bootstrap.strip_scheme (Bootstrap.endpoint st)
                +:+ "'," +:+ nl) sql = true
    ∧ contains ("  USE_SSL "
                +:+ (if Bootstrap.use_ssl st then "true" else "false")
                +:+ "," +:+ nl) sql = true.
Proof. apply create_secret_sql_brace_free. Qed.

(** X7 on the storage of the starter configuration. *)
Lemma secret_statement_without_braces_witness :
  ∃ sql,
    Bootstrap.create_secret_sql
      (Examples.storage_of "tpch/" (Some "minioadmin") (Some "minioadmin"))
      "minio" = Ok sql
    ∧ contains ("  ENDPOINT 'localhost:9000'," +:+ nl) sql = true
    ∧ contains ("  USE_SSL false," +:+ nl) sql = true.
Proof.
  exact (secret_statement_without_braces
           (Examples.storage_of "tpch/" (Some "minioadmin") (Some "minioadmin"))
           "minio" eq_refl eq_refl eq_refl eq_refl eq_refl).
Defined.

(* ===================================================================== *)
(** ** More on the bulk load and the attach                               *)
(* ===================================================================== *)

Lemma execute_trace s w :
  trace (execute s w).2 = (trace w ++ [Execute s])%list.
Proof.
  unfold execute. destruct (rejects w s); [done|].
  destruct s; cbn; repeat case_match; done.
Qed.

(** Code that only talks to the engine adds only statements to the trace. *)
Section OnlyStatements.
Let statements {A} (m : M A) : Prop :=
  ∀ w, ∃ evs, trace (m w).2 = (trace w ++ evs)%list
              ∧ Forall (fun ev => ∃ s, ev = Execute s) evs.

Lemma statements_execute s : statements (execute s).
Proof.
  intros w. exists [Execute s]. split; [apply execute_trace|].
  constructor; [by exists s | constructor].
Qed.

Lemma statements_ret {A} (a : A) : statements (ret a).
Proof. intros w. exists []. by rewrite app_nil_r. Qed.

Lemma statements_bind {A B} (m : M A) (f : A → M B) :
  statements m → (∀ a, statements (f a)) → statements (bind m f).
Proof.
  intros Hm Hf w. destruct (Hm w) as (evs & Hevs & Hall).
  unfold bind. destruct (m w) as [[a| |] w1]; cbn in Hevs; try by exists evs.
  destruct (Hf a w1) as (evs' & Hevs' & Hall').
  exists (evs ++ evs')%list. rewrite Hevs', Hevs, app_assoc.
  split; [done | by apply Forall_app].
Qed.

Lemma statements_try {A} (m : M A) (h : exn → M A) :
  statements m → (∀ e, statements (h e)) → statements (try_except m h).
Proof.
  intros Hm Hh w. destruct (Hm w) as (evs & Hevs & Hall).
  unfold try_except. destruct (m w) as [[a|e|] w1]; cbn in Hevs; try by exists evs.
  destruct (Hh e w1) as (evs' & Hevs' & Hall').
  exists (evs ++ evs')%list. rewrite Hevs', Hevs, app_assoc.
  split; [done | by apply Forall_app].
Qed.
End OnlyStatements.

(** X8. The dataset is downloaded only when it is not there: with the
    file present the load adds nothing but statements to the trace; with
    the file absent and the download refused, the load raises the error of
    the download and nothing is sent to the engine. *)
Theorem download_only_when_missing (scale : Z) (ducklake_alias : string)
    (w : World) :
  (Bootstrap.local_db scale ∈ files w →
     ∃ evs,
       trace (Bootstrap.generate_tpch_and_load scale ducklake_alias w).2
       = (trace w ++ evs)%list
       ∧ Forall (fun ev => ∃ s, ev = Execute s) evs)
  ∧ (∀ msg,
       Bootstrap.local_db scale ∉ files w →
       net_fails w (Bootstrap.dataset_url scale) = Some msg →
       Bootstrap.generate_tpch_and_load scale ducklake_alias w
       = (Raise (Exn URLError msg),
          log (Download (Bootstrap.dataset_url scale) (Bootstrap.local_db scale)) w)).
Proof.
  split.
  - intros Hin. unfold Bootstrap.generate_tpch_and_load, bind at 1, path_exists.
    rewrite (bool_decide_eq_true_2 _ Hin). cbn [negb].
    apply (statements_bind (ret tt)); [apply statements_ret|]. intros _.
    repeat (apply statements_bind; [apply statements_execute | intros _]).
    apply statements_execute.
  - intros msg Hnot Hnet.
    unfold Bootstrap.generate_tpch_and_load, bind at 1, path_exists.
    rewrite (bool_decide_eq_false_2 _ Hnot). cbn [negb].
    unfold bind at 1. unfold bind at 1, urlretrieve. by rewrite Hnet.
Qed.

(** X8 on two runs: the dataset is there, and the dataset is not there
    while the network is down. *)
Lemma download_only_when_missing_witness :
  (∃ evs,
     trace (Bootstrap.generate_tpch_and_load 1 "my_ducklake" Examples.populated).2
     = (trace Examples.populated ++ evs)%list
     ∧ Forall (fun ev => ∃ s, ev = Execute s) evs)
  ∧ Bootstrap.generate_tpch_and_load 1 "my_ducklake" Examples.offline
    = (Raise (Exn URLError "Temporary failure in name resolution"),
       log (Download (Bootstrap.dataset_url 1) (Bootstrap.local_db 1))
           Examples.offline).
Proof.
  split.
  - apply (proj1 (download_only_when_missing 1 "my_ducklake" Examples.populated)).
    by vm_compute.
  - apply (proj2 (download_only_when_missing 1 "my_ducklake" Examples.offline)).
    + by vm_compute.
    + reflexivity.
Defined.
